(** * ue-clangd-helper: a shallow embedding of [src/extension.ts]

    The extension is glue around three host libraries: Node's [fs] and
    [path], the JavaScript [JSON] object, and the VS Code API.  The file
    system and the editor are modelled as an explicit world that every
    operation threads through; what the JavaScript runtime provides
    (numbers, [JSON.parse], [JSON.stringify], the path separator) is an
    interface, [Runtime], over which the program is written. *)

From Stdlib Require Import ZArith Ascii DecimalString.
From stdpp Require Import base strings list gmap.

Local Open Scope Z_scope.

(** ** JSON values *)

(** What [JSON.parse] returns.  An object is the ordered list of its own
    properties; [number] stands for the doubles, read up to the sign of
    zero (the program only ever tests a number for truthiness).  A
    numeral too large for a double is read by [JSON.parse] as
    [Infinity]; a runtime tells it apart with [Number_isFinite]. *)
#[local] Unset Elimination Schemes.
Inductive json (number : Type) : Type :=
  | JNull
  | JBool (b : bool)
  | JNum (n : number)
  | JStr (s : string)
  | JArr (items : list (json number))
  | JObj (props : list (string * json number)).
#[local] Set Elimination Schemes.

Arguments JNull {number}.
Arguments JBool {number} b.
Arguments JNum {number} n.
Arguments JStr {number} s.
Arguments JArr {number} items.
Arguments JObj {number} props.

(** ** The JavaScript runtime, as far as the extension relies on it *)

Class Runtime := {
  number : Type;
  (** [n === 0], i.e. the number is falsy ([NaN] is not a JSON value) *)
  Number_isZero : number → bool;
  (** [String(n)] *)
  Number_toString : number → string;
  (** [path.sep] *)
  path_sep : string;
  (** [JSON.parse(text)]; [None] when it throws a [SyntaxError] *)
  JSON_parse : string → option (json number);
  (** [JSON.stringify(value, null, 4)] *)
  JSON_stringify : json number → string;
  (** [Number.isFinite(n)]: false of the [Infinity] that [JSON.parse]
      returns for a numeral beyond the double range, and that
      [JSON.stringify] writes as [null] *)
  Number_isFinite : number → bool;
}.

Abbreviation value := (json number).

(** ** Strings and paths *)

Module Str.

(** [s.endsWith(suffix)] *)
Definition endsWith (s suffix : string) : bool :=
  bool_decide (String.length suffix ≤ String.length s)%nat &&
  String.eqb
    (String.substring (String.length s - String.length suffix)
                      (String.length suffix) s)
    suffix.

(** [s.includes(pattern)] *)
Fixpoint includes (s pattern : string) : bool :=
  String.prefix pattern s ||
  match s with
  | EmptyString => false
  | String _ s' => includes s' pattern
  end.

(** [s.startsWith(p)] *)
Definition startsWith (s p : string) : bool := String.prefix p s.

(** [s.lastIndexOf(c)] for a single character, [None] for [-1] *)
Fixpoint lastIndexOf (c : ascii) (s : string) : option nat :=
  match s with
  | EmptyString => None
  | String a s' =>
      match lastIndexOf c s' with
      | Some i => Some (S i)
      | None => if Ascii.eqb a c then Some 0%nat else None
      end
  end.

(** A JavaScript string is truthy when it is not empty. *)
Definition truthy (s : string) : bool :=
  match s with EmptyString => false | String _ _ => true end.

End Str.

Module Path.
Section WithRuntime.
Context `{Runtime}.

(** [path.join(...segments)] on segments that are already normalised
    (no empty segment, no trailing separator, no [.] or [..]). *)
Fixpoint join (segments : list string) : string :=
  match segments with
  | [] => "."
  | [s] => s
  | s :: rest => s +:+ path_sep +:+ join rest
  end.

(** [path.parse(base).name] for a bare file name: the name without its
    extension, where a leading dot does not start an extension. *)
Definition parse_name (base : string) : string :=
  if String.eqb base ".." then base
  else match Str.lastIndexOf "." base with
       | Some (S n) => String.substring 0 (S n) base
       | _ => base
       end.

End WithRuntime.
End Path.

(** ** Results and exceptions *)

Inductive Exn :=
  | TypeError
  | SyntaxError
  | IOError
  | CommandNotFound.

Inductive Result (A : Type) :=
  | Ok (a : A)
  | Throw (e : Exn).
Arguments Ok {A} a.
Arguments Throw {A} e.

(** ** The file system *)

Inductive node :=
  | File (content : string)
  | Dir (entries : list string).

(** Paths are the strings Node receives.  [denied] lists the paths on
    which reading, listing and writing fail (permissions). *)
Record FileSystem := {
  nodes : gmap string node;
  denied : gset string;
}.

Module Fs.

Definition node_at (fs : FileSystem) (p : string) : option node :=
  if Str.truthy p then nodes fs !! p else None.

Definition put (fs : FileSystem) (p : string) (n : node) : FileSystem :=
  {| nodes := <[p := n]> (nodes fs); denied := denied fs |}.

(** [fs.existsSync(p)]: never throws *)
Definition existsSync (fs : FileSystem) (p : string) : bool :=
  match node_at fs p with Some _ => true | None => false end.

(** [fs.statSync(p).isDirectory()] *)
Definition statSync_isDirectory (fs : FileSystem) (p : string) : Result bool :=
  match node_at fs p with
  | Some (Dir _) => Ok true
  | Some (File _) => Ok false
  | None => Throw IOError
  end.

(** [fs.readdirSync(p)] *)
Definition readdirSync (fs : FileSystem) (p : string) : Result (list string) :=
  match node_at fs p with
  | Some (Dir entries) =>
      if decide (p ∈ denied fs) then Throw IOError else Ok entries
  | _ => Throw IOError
  end.

(** [fs.readFileSync(p, 'utf8')] *)
Definition readFileSync (fs : FileSystem) (p : string) : Result string :=
  match node_at fs p with
  | Some (File content) =>
      if decide (p ∈ denied fs) then Throw IOError else Ok content
  | _ => Throw IOError
  end.

(** [fs.writeFileSync(p, content, 'utf8')]: creates or overwrites *)
Definition writeFileSync (fs : FileSystem) (p content : string)
  : Result FileSystem :=
  if negb (Str.truthy p) then Throw IOError
  else if decide (p ∈ denied fs) then Throw IOError
  else match nodes fs !! p with
       | Some (Dir _) => Throw IOError
       | _ => Ok (put fs p (File content))
       end.

(** [fs.mkdirSync(p, { recursive: true })] *)
Definition mkdirSync (fs : FileSystem) (p : string) : Result FileSystem :=
  if negb (Str.truthy p) then Throw IOError
  else if decide (p ∈ denied fs) then Throw IOError
  else match nodes fs !! p with
       | Some (Dir _) => Ok fs
       | Some (File _) => Throw IOError
       | None => Ok (put fs p (Dir []))
       end.

(** [fs.copyFileSync(source, dest)] *)
Definition copyFileSync (fs : FileSystem) (source dest : string)
  : Result FileSystem :=
  match readFileSync fs source with
  | Ok content => writeFileSync fs dest content
  | Throw e => Throw e
  end.

End Fs.

(** ** The editor and the world *)

Inductive DiagnosticSeverity := Error | Warning | Information | Hint.

(** [Diagnostic.code]: [string | number | { value: string | number;
    target: Uri } | undefined] *)
Inductive CodeValue `{Runtime} :=
  | ValueString (s : string)
  | ValueNumber (n : number).

Inductive DiagnosticCode `{Runtime} :=
  | CodeUndefined
  | CodeString (s : string)
  | CodeNumber (n : number)
  | CodeObject (value : CodeValue).

Record Diagnostic `{Runtime} := {
  severity : DiagnosticSeverity;
  code : DiagnosticCode;
}.

Record Task := {
  name : string;
  source : string;
}.

Record TextDocument := {
  fileName : string;
  uri : string;
}.

Record ExtensionContext := {
  extensionPath : string;
}.

(** What the extension reads from the [vscode] module during one
    command or event: it is never written. *)
Record VSCode `{Runtime} := {
  (** [vscode.workspace.workspaceFolders], each folder by its
      [uri.fsPath]; [None] is [undefined] *)
  workspaceFolders : option (list string);
  (** truthiness of
      [vscode.workspace.getConfiguration('ueClangdHelper').get(key)] *)
  config_get : string → bool;
  (** [vscode.languages.getDiagnostics(uri)] *)
  getDiagnostics : string → list Diagnostic;
  (** what [vscode.tasks.fetchTasks()] resolves to *)
  fetchTasks : list Task;
  (** the commands [vscode.commands.executeCommand] can run *)
  commands : gset string;
}.

(** What the extension does to the outside, in order. *)
Inductive Event :=
  | ConsoleWarn (message : string)
  | ConsoleError
  | ShowInformationMessage (message : string)
  | ShowWarningMessage (message : string)
  | ShowErrorMessage (message : string)
  | ExecuteTask (task : Task)
  | ExecuteCommand (command : string).

Record World := {
  fs : FileSystem;
  events : list Event;
}.

(** ** Computations: state passing with exceptions *)

Definition M (A : Type) : Type := World → Result A * World.

Module Eff.

Definition ret {A} (a : A) : M A := λ w, (Ok a, w).

Definition bind {A B} (m : M A) (k : A → M B) : M B :=
  λ w, match m w with
       | (Ok a, w') => k a w'
       | (Throw e, w') => (Throw e, w')
       end.

Definition throw {A} (e : Exn) : M A := λ w, (Throw e, w).

(** [try { m } catch (e) { handler }] *)
Definition try_catch {A} (m : M A) (handler : Exn → M A) : M A :=
  λ w, match m w with
       | (Ok a, w') => (Ok a, w')
       | (Throw e, w') => handler e w'
       end.

Definition emit (e : Event) : M unit :=
  λ w, (Ok tt, {| fs := fs w; events := events w ++ [e] |}).

(** a call of [fs] that only reads *)
Definition reads {A} (f : FileSystem → Result A) : M A :=
  λ w, (f (fs w), w).

(** a call of [fs] that writes *)
Definition writes (f : FileSystem → Result FileSystem) : M unit :=
  λ w, match f (fs w) with
       | Ok fs' => (Ok tt, {| fs := fs'; events := events w |})
       | Throw e => (Throw e, w)
       end.

Definition of_result {A} (r : Result A) : M A := λ w, (r, w).

Fixpoint foldM {A S} (step : S → A → M S) (xs : list A) (s : S) : M S :=
  match xs with
  | [] => ret s
  | x :: xs' => bind (step s x) (foldM step xs')
  end.

End Eff.

Declare Scope eff_scope.
Delimit Scope eff_scope with eff.
Notation "x <- m ;; k" := (Eff.bind m (λ x, k))
  (at level 100, m at next level, right associativity) : eff_scope.
Notation "m ;; k" := (Eff.bind m (λ _, k))
  (at level 100, right associativity) : eff_scope.
Local Open Scope eff_scope.

(** ** JavaScript objects, as far as the extension touches them *)

Module Js.
Section WithRuntime.
Context `{Runtime}.

(** own property lookup, [None] is [undefined] *)
Fixpoint assoc_get (k : string) (props : list (string * value))
  : option value :=
  match props with
  | [] => None
  | (k', v) :: rest => if String.eqb k' k then Some v else assoc_get k rest
  end.

(** assignment of an own property: an existing key keeps its place, a
    new key (here never an array index) goes last *)
Fixpoint assoc_set (k : string) (v : value) (props : list (string * value))
  : list (string * value) :=
  match props with
  | [] => [(k, v)]
  | (k', v') :: rest =>
      if String.eqb k' k then (k', v) :: rest
      else (k', v') :: assoc_set k v rest
  end.

(** [!!x] *)
Definition truthy (x : option value) : bool :=
  match x with
  | None => false
  | Some JNull => false
  | Some (JBool b) => b
  | Some (JNum n) => negb (Number_isZero n)
  | Some (JStr s) => Str.truthy s
  | Some (JArr _) => true
  | Some (JObj _) => true
  end.

(** A value held in a variable: its JSON content and, when that is an
    array, the non-index properties assigned to it, which
    [JSON.stringify] leaves out. *)
Record Ref := {
  content : value;
  expando : list (string * value);
}.

Definition ref (v : value) : Ref := {| content := v; expando := [] |}.

(** [r.k], for a key [k] that no prototype defines ([tasks], [label]) *)
Definition getProp (r : Ref) (k : string) : Result (option value) :=
  match content r with
  | JNull => Throw TypeError
  | JObj props => Ok (assoc_get k props)
  | JArr _ => Ok (assoc_get k (expando r))
  | _ => Ok None
  end.

(** [r.k = v] in strict mode: a [TypeError] on [null] and on a
    primitive *)
Definition setProp (r : Ref) (k : string) (v : value) : Result Ref :=
  match content r with
  | JObj props =>
      Ok {| content := JObj (assoc_set k v props); expando := expando r |}
  | JArr _ =>
      Ok {| content := content r; expando := assoc_set k v (expando r) |}
  | _ => Throw TypeError
  end.

(** [x === s] for a string [s] *)
Definition strictEqualsString (x : option value) (s : string) : bool :=
  match x with
  | Some (JStr t) => String.eqb t s
  | _ => false
  end.

(** [xs.findIndex(p)], scanning from index [i]; [p] may throw *)
Fixpoint findIndex_from (p : value → Result bool) (xs : list value) (i : Z)
  : Result Z :=
  match xs with
  | [] => Ok (-1)
  | x :: xs' =>
      match p x with
      | Throw e => Throw e
      | Ok true => Ok i
      | Ok false => findIndex_from p xs' (i + 1)
      end
  end.

Definition findIndex (p : value → Result bool) (xs : list value) : Result Z :=
  findIndex_from p xs 0.

End WithRuntime.
End Js.

(** ** The extension *)

Record WorkspacePaths := {
  projectRoot : string;
  engineRoot : string;
  projectName : string;
}.

(** One of the object literals of [newTasks]; its [label] is statically a
    string. *)
Record TaskDefinition `{Runtime} := {
  label : string;
  fields : list (string * value);
}.

Definition TASK_GENERATE : string := "Generate Clang CompileCommands".
Definition TASK_UHT : string := "Refresh UHT Generated Headers".
Definition TASK_COMPOUND : string := "Fix Header False Errors".

Section Extension.
Context `{Runtime}.
Variable vscode : VSCode.

Definition task_json (nt : TaskDefinition) : value :=
  JObj (("label", JStr (label nt)) :: fields nt).

(** *** [getWorkspacePaths] *)

(** the body of the [for] loop: one folder, with the three variables
    as they stand *)
Definition scanFolder (acc : WorkspacePaths) (fsPath : string)
  : M WorkspacePaths :=
  Eff.try_catch
    (isDir <- Eff.reads (λ d, Fs.statSync_isDirectory d fsPath) ;;
     if negb isDir then Eff.ret acc
     else
       files <- Eff.reads (λ d, Fs.readdirSync d fsPath) ;;
       let acc1 :=
         match List.find (λ f, Str.endsWith f ".uproject") files with
         | Some uproject =>
             {| projectRoot := fsPath;
                engineRoot := engineRoot acc;
                projectName := Path.parse_name uproject |}
         | None => acc
         end in
       marker <- Eff.reads (λ d, Ok (Fs.existsSync d
                   (Path.join [fsPath; "Engine"; "Build"; "BatchFiles";
                               "Build.bat"]))) ;;
       Eff.ret (if marker : bool
                then {| projectRoot := projectRoot acc1;
                        engineRoot := fsPath;
                        projectName := projectName acc1 |}
                else acc1))
    (λ _, Eff.emit (ConsoleWarn
            ("UE Clangd Helper: Failed to read folder " +:+ fsPath)) ;;
          Eff.ret acc).

Definition getWorkspacePaths : M (option WorkspacePaths) :=
  match workspaceFolders vscode with
  | None => Eff.ret None
  | Some folders =>
      found <- Eff.foldM scanFolder folders
                 {| projectRoot := ""; engineRoot := ""; projectName := "" |} ;;
      if Str.truthy (projectRoot found) && Str.truthy (engineRoot found)
         && Str.truthy (projectName found)
      then Eff.ret (Some found)
      else Eff.ret None
  end.

(** *** [hasPhantomErrors] *)

Definition errorCode (d : Diagnostic) : string :=
  match code d with
  | CodeString s => s
  | CodeObject (ValueString s) => s
  | CodeObject (ValueNumber n) => Number_toString n
  | _ => ""
  end.

Definition hasPhantomErrors (fileUri : string) : bool :=
  existsb
    (λ diagnostic,
       match severity diagnostic with Error => true | _ => false end &&
       (String.eqb (errorCode diagnostic) "ovl_deleted_init" ||
        String.eqb (errorCode diagnostic) "missing_type_specifier"))
    (getDiagnostics vscode fileUri).

(** *** [triggerTask] *)

Definition triggerTask (taskName : string) : M unit :=
  match List.find (λ t, String.eqb (name t) taskName) (fetchTasks vscode) with
  | Some task => Eff.emit (ExecuteTask task)
  | None =>
      Eff.emit (ShowErrorMessage
        ("Task '" +:+ taskName +:+ "' not found. Try running Setup first."))
  end.

(** [vscode.commands.executeCommand(command)], awaited *)
Definition executeCommand (command : string) : M unit :=
  Eff.emit (ExecuteCommand command) ;;
  if decide (command ∈ commands vscode) then Eff.ret tt
  else Eff.throw CommandNotFound.

(** *** [syncCompileCommands] *)

Definition syncCompileCommands : M unit :=
  paths <- getWorkspacePaths ;;
  match paths with
  | None => Eff.ret tt
  | Some paths =>
      let source := Path.join [engineRoot paths; "compile_commands.json"] in
      let dest := Path.join [projectRoot paths; "compile_commands.json"] in
      present <- Eff.reads (λ d, Ok (Fs.existsSync d source)) ;;
      if present : bool then
        Eff.try_catch
          (Eff.writes (λ d, Fs.copyFileSync d source dest) ;;
           Eff.emit (ShowInformationMessage
             "Synced compile_commands.json from Engine to Project.") ;;
           executeCommand "clangd.restart")
          (λ _, Eff.emit (ShowErrorMessage
             "Failed to copy compile_commands.json. Check file permissions."))
      else
        Eff.emit (ShowWarningMessage
          "compile_commands.json not found in Engine root. Did the generate task fail?")
  end.

(** *** [injectTasks] *)

Definition buildBat (paths : WorkspacePaths) : string :=
  Path.join [engineRoot paths; "Engine"; "Build"; "BatchFiles"; "Build.bat"].

Definition uproject (paths : WorkspacePaths) : string :=
  Path.join [projectRoot paths; projectName paths +:+ ".uproject"].

Definition manifest (paths : WorkspacePaths) : string :=
  Path.join [projectRoot paths; "Intermediate"; "Build"; "Win64";
             projectName paths +:+ "Editor"; "Development";
             projectName paths +:+ "Editor.uhtmanifest"].

Definition newTasks (paths : WorkspacePaths) : list TaskDefinition :=
  [ {| label := TASK_GENERATE;
       fields :=
         [ ("type", JStr "shell");
           ("command", JStr (buildBat paths));
           ("args", JArr
              [ JStr (projectName paths +:+ "Editor"); JStr "Win64";
                JStr "Development";
                JStr ("-project=" +:+ uproject paths);
                JStr "-mode=GenerateClangDatabase"; JStr "-game";
                JStr "-rocket"; JStr "-progress"; JStr "-UsePrecompiled" ]);
           ("group", JStr "build");
           ("problemMatcher", JArr []) ] |};
    {| label := TASK_UHT;
       fields :=
         [ ("type", JStr "shell");
           ("command", JStr (buildBat paths));
           ("args", JArr
              [ JStr "-Mode=UnrealHeaderTool"; JStr (uproject paths);
                JStr (manifest paths); JStr "-WarningsAsErrors" ]);
           ("problemMatcher", JStr "$msCompile");
           ("presentation",
              JObj [ ("reveal", JStr "silent"); ("panel", JStr "shared") ]) ] |};
    {| label := "Restart Clangd";
       fields :=
         [ ("command", JStr "${command:clangd.restart}");
           ("problemMatcher", JArr []) ] |};
    {| label := TASK_COMPOUND;
       fields :=
         [ ("dependsOn", JArr [ JStr TASK_UHT; JStr "Restart Clangd" ]);
           ("dependsOrder", JStr "sequence");
           ("group",
              JObj [ ("kind", JStr "build"); ("isDefault", JBool false) ]);
           ("problemMatcher", JArr []) ] |} ].

Definition vscodeDir (paths : WorkspacePaths) : string :=
  Path.join [projectRoot paths; ".vscode"].

Definition tasksJsonPath (paths : WorkspacePaths) : string :=
  Path.join [vscodeDir paths; "tasks.json"].

(** [{ "version": "2.0.0", "tasks": [] }] *)
Definition defaultTasksJson : Js.Ref :=
  Js.ref (JObj [ ("version", JStr "2.0.0"); ("tasks", JArr []) ]).

(** the body of the [try] that reads the existing [tasks.json] *)
Definition readTasksJson (paths : WorkspacePaths) : M Js.Ref :=
  content <- Eff.reads (λ d, Fs.readFileSync d (tasksJsonPath paths)) ;;
  match JSON_parse content with
  | None => Eff.throw SyntaxError
  | Some parsed =>
      let tasksJson := Js.ref parsed in
      tasks <- Eff.of_result (Js.getProp tasksJson "tasks") ;;
      if negb (Js.truthy tasks)
      then Eff.of_result (Js.setProp tasksJson "tasks" (JArr []))
      else Eff.ret tasksJson
  end.

(** [et => et.label === nt.label] *)
Definition sameLabel (nt : TaskDefinition) (et : value) : Result bool :=
  match Js.getProp (Js.ref et) "label" with
  | Ok x => Ok (Js.strictEqualsString x (label nt))
  | Throw e => Throw e
  end.

(** the array [tasksJson.tasks] after [tasks[idx] = nt], or after
    [tasks.push(nt)] when [idx] is [-1] *)
Definition placeTask (tasks : list value) (idx : Z) (nt : TaskDefinition)
  : list value :=
  if Z.eqb idx (-1) then tasks ++ [task_json nt]
  else <[Z.to_nat idx := task_json nt]> tasks.

(** the callback of [newTasks.forEach]; the array is updated in place,
    so the result is [tasksJson] with that array *)
Definition updateOrAdd (tasksJson : Js.Ref) (nt : TaskDefinition)
  : Result Js.Ref :=
  match Js.getProp tasksJson "tasks" with
  | Throw e => Throw e
  | Ok (Some (JArr tasks)) =>
      match Js.findIndex (sameLabel nt) tasks with
      | Throw e => Throw e
      | Ok idx => Js.setProp tasksJson "tasks" (JArr (placeTask tasks idx nt))
      end
  | Ok _ => Throw TypeError  (* [findIndex] is not a function *)
  end.

Definition injectTasks (paths : WorkspacePaths) : M unit :=
  dirExists <- Eff.reads (λ d, Ok (Fs.existsSync d (vscodeDir paths))) ;;
  (if negb dirExists
   then Eff.writes (λ d, Fs.mkdirSync d (vscodeDir paths))
   else Eff.ret tt) ;;
  fileExists <- Eff.reads (λ d, Ok (Fs.existsSync d (tasksJsonPath paths))) ;;
  tasksJson <-
    (if fileExists : bool
     then Eff.try_catch (readTasksJson paths)
            (λ _, Eff.emit (ConsoleWarn
              "UE Clangd Helper: Failed to parse existing tasks.json, creating new one.") ;;
                  Eff.ret defaultTasksJson)
     else Eff.ret defaultTasksJson) ;;
  tasksJson <-
    Eff.foldM (λ t nt, Eff.of_result (updateOrAdd t nt))
              (newTasks paths) tasksJson ;;
  Eff.writes (λ d, Fs.writeFileSync d (tasksJsonPath paths)
                     (JSON_stringify (Js.content tasksJson))).

(** *** [runSetup] *)

Definition createFile (filePath content : string) : M unit :=
  Eff.writes (λ d, Fs.writeFileSync d filePath content).

Definition asAbsolutePath (context : ExtensionContext) (relative : string)
  : string :=
  Path.join [extensionPath context; relative].

(** the [try] block under [if (config.get('generateConfigs'))] *)
Definition generateConfigs (context : ExtensionContext)
    (paths : WorkspacePaths) : M unit :=
  Eff.try_catch
    (let clangdSrc := asAbsolutePath context (Path.join ["resources"; ".clangd"]) in
     let formatSrc :=
       asAbsolutePath context (Path.join ["resources"; ".clang-format"]) in
     clangdContent <- Eff.reads (λ d, Fs.readFileSync d clangdSrc) ;;
     formatContent <- Eff.reads (λ d, Fs.readFileSync d formatSrc) ;;
     createFile (Path.join [projectRoot paths; ".clangd"]) clangdContent ;;
     createFile (Path.join [projectRoot paths; ".clang-format"]) formatContent ;;
     Eff.try_catch
       (createFile (Path.join [engineRoot paths; ".clangd"]) clangdContent)
       (λ _, Eff.emit (ShowWarningMessage
          "Could not write .clangd to Engine root. Run VSCode as Admin if needed.")))
    (λ _, Eff.emit (ShowErrorMessage
            "Failed to read resource templates. Check extension installation.") ;;
          Eff.emit ConsoleError).

Definition showMissingPathsError : M unit :=
  Eff.emit (ShowErrorMessage
    "Error: Engine or Project root not found in workspace. Please run 'Generate Visual Studio Code Project' from the Unreal Editor.").

Definition runSetup (context : ExtensionContext) : M unit :=
  paths <- getWorkspacePaths ;;
  match paths with
  | None => showMissingPathsError
  | Some paths =>
      (if config_get vscode "generateConfigs"
       then generateConfigs context paths
       else Eff.ret tt) ;;
      injectTasks paths ;;
      (* the 500 ms pause changes nothing in the world *)
      triggerTask TASK_GENERATE ;;
      Eff.emit (ShowInformationMessage
        "UE Clangd Helper: Setup initiated. Build task running...")
  end.

(** *** the watchers of [activate] *)

Definition taskWatcher (endedTask : Task) : M unit :=
  if String.eqb (name endedTask) TASK_GENERATE then
    if config_get vscode "syncCompileCommands" then syncCompileCommands
    else Eff.ret tt
  else Eff.ret tt.

Definition saveWatcher (savedDocument : TextDocument) : M unit :=
  if negb (config_get vscode "autoFixOnSave") then Eff.ret tt
  else
    projectPaths <- getWorkspacePaths ;;
    match projectPaths with
    | None => Eff.ret tt
    | Some projectPaths =>
        let isHeader := Str.endsWith (fileName savedDocument) ".h" in
        let isInSource :=
          Str.includes (fileName savedDocument)
            (Path.join [projectRoot projectPaths; "Source"]) in
        if isHeader && isInSource then
          if hasPhantomErrors (uri savedDocument)
          then triggerTask TASK_COMPOUND
          else Eff.ret tt
        else Eff.ret tt
    end.

End Extension.

(** *** the commands of [activate] *)

Section Commands.
Context `{Runtime}.
Variable vscode : VSCode.

(** [ue-clangd-helper.setup] *)
Definition cmdSetup (context : ExtensionContext) : M unit :=
  runSetup vscode context.

(** [ue-clangd-helper.refreshFiles] *)
Definition cmdRefreshFiles : M unit :=
  paths <- getWorkspacePaths vscode ;;
  match paths with
  | None => showMissingPathsError
  | Some _ => triggerTask vscode TASK_GENERATE
  end.

(** [ue-clangd-helper.refreshHeaders] *)
Definition cmdRefreshHeaders : M unit :=
  paths <- getWorkspacePaths vscode ;;
  match paths with
  | None => showMissingPathsError
  | Some paths =>
      injectTasks paths ;;
      triggerTask vscode TASK_COMPOUND
  end.

End Commands.

(** ** The values [JSON.parse] can return *)

Module Canon.

Fixpoint digits_value (s : string) (acc : N) : option N :=
  match s with
  | EmptyString => Some acc
  | String c s' =>
      match Ascii.is_nat c with
      | Some d => digits_value s' (10 * acc + N.of_nat d)%N
      | None => None
      end
  end.

(** the array index a property key denotes, if it is one: a canonical
    decimal numeral below [2^32 - 1] *)
Definition array_index (k : string) : option N :=
  match k with
  | EmptyString => None
  | String "0" EmptyString => Some 0%N
  | String "0" _ => None
  | _ =>
      match digits_value k 0 with
      | Some i => if (i <? 4294967295)%N then Some i else None
      | None => None
      end
  end.

Definition is_string_key (k : string) : bool :=
  match array_index k with None => true | Some _ => false end.

(** own property keys come as the array indices in ascending order,
    then the other keys *)
Fixpoint indices_then_strings (above : option N) (keys : list string) : bool :=
  match keys with
  | [] => true
  | k :: rest =>
      match array_index k with
      | Some i =>
          match above with Some j => (j <? i)%N | None => true end &&
          indices_then_strings (Some i) rest
      | None => forallb is_string_key rest
      end
  end.

Definition own_keys (keys : list string) : bool :=
  bool_decide (NoDup keys) && indices_then_strings None keys.

Fixpoint canonical {number : Type} (v : json number) : bool :=
  match v with
  | JArr items => forallb canonical items
  | JObj props =>
      own_keys (map fst props) &&
      forallb (λ kv, match kv with (_, x) => canonical x end) props
  | _ => true
  end.

End Canon.

(** no number in the value is [Infinity]: the value is written by
    [JSON.stringify] as it is *)
Fixpoint finite `{Runtime} (v : value) : bool :=
  match v with
  | JNum n => Number_isFinite n
  | JArr items => forallb finite items
  | JObj props => forallb (λ kv, match kv with (_, x) => finite x end) props
  | _ => true
  end.

(** ** A reference runtime

    Integers for numbers, [/] for the separator, and a codec that writes
    a value as the binary numeral of its code.  It shows that what the
    theorems below assume of [JSON.parse] and [JSON.stringify] can be
    met, and it is the runtime of the worked examples. *)

Module Reference.

Definition leaf : Type := bool + Z + string.

Fixpoint to_tree (v : json Z) : gen_tree leaf :=
  match v with
  | JNull => GenNode 0 []
  | JBool b => GenLeaf (inl (inl b))
  | JNum n => GenLeaf (inl (inr n))
  | JStr s => GenLeaf (inr s)
  | JArr items => GenNode 1 (map to_tree items)
  | JObj props =>
      GenNode 2
        (map (λ kv, match kv with
                    | (k, x) => GenNode 3 [GenLeaf (inr k); to_tree x]
                    end) props)
  end.

Fixpoint of_tree (t : gen_tree leaf) : json Z :=
  match t with
  | GenLeaf (inl (inl b)) => JBool b
  | GenLeaf (inl (inr n)) => JNum n
  | GenLeaf (inr s) => JStr s
  | GenNode 1 ts => JArr (map of_tree ts)
  | GenNode 2 ts =>
      JObj (map (λ t', match t' with
                       | GenNode 3 [GenLeaf (inr k); tx] => (k, of_tree tx)
                       | _ => (EmptyString, JNull)
                       end) ts)
  | GenNode _ _ => JNull
  end.

Fixpoint pos_to_bits (p : positive) : string :=
  match p with
  | xH => EmptyString
  | xO p' => String "0" (pos_to_bits p')
  | xI p' => String "1" (pos_to_bits p')
  end.

Fixpoint bits_to_pos (s : string) : option positive :=
  match s with
  | EmptyString => Some xH
  | String c s' =>
      match bits_to_pos s' with
      | Some p =>
          if Ascii.eqb c "0" then Some (xO p)
          else if Ascii.eqb c "1" then Some (xI p)
          else None
      | None => None
      end
  end.

Definition stringify (v : json Z) : string :=
  pos_to_bits (encode (to_tree v)).

Definition parse (s : string) : option (json Z) :=
  match bits_to_pos s ≫= decode with
  | Some t =>
      let v := of_tree t in
      if Canon.canonical v then Some v else None
  | None => None
  end.

#[export] Instance runtime : Runtime := {|
  number := Z;
  Number_isZero := Z.eqb 0;
  Number_toString := λ n, NilZero.string_of_int (Z.to_int n);
  path_sep := "/";
  JSON_parse := parse;
  JSON_stringify := stringify;
  Number_isFinite := λ _, true;
|}.

End Reference.

(** ** A runtime with a number beyond the double range

    The reference runtime with one more number, [Infinity] (written
    [None]), which is what [JSON.parse] returns for a numeral such as
    [1e400].  [JSON.stringify] writes it as [null]; [numeral] is the
    text that reads as a given value, [Infinity] included. *)

Module Overflow.

Definition leaf : Type := bool + option Z + string.

Fixpoint to_tree (v : json (option Z)) : gen_tree leaf :=
  match v with
  | JNull => GenNode 0 []
  | JBool b => GenLeaf (inl (inl b))
  | JNum n => GenLeaf (inl (inr n))
  | JStr s => GenLeaf (inr s)
  | JArr items => GenNode 1 (map to_tree items)
  | JObj props =>
      GenNode 2
        (map (λ kv, match kv with
                    | (k, x) => GenNode 3 [GenLeaf (inr k); to_tree x]
                    end) props)
  end.

Fixpoint of_tree (t : gen_tree leaf) : json (option Z) :=
  match t with
  | GenLeaf (inl (inl b)) => JBool b
  | GenLeaf (inl (inr n)) => JNum n
  | GenLeaf (inr s) => JStr s
  | GenNode 1 ts => JArr (map of_tree ts)
  | GenNode 2 ts =>
      JObj (map (λ t', match t' with
                       | GenNode 3 [GenLeaf (inr k); tx] => (k, of_tree tx)
                       | _ => (EmptyString, JNull)
                       end) ts)
  | GenNode _ _ => JNull
  end.

(** what [JSON.stringify] makes of a value before it writes it: a
    number that is not finite becomes [null] *)
Fixpoint sanitize (v : json (option Z)) : json (option Z) :=
  match v with
  | JNum None => JNull
  | JArr items => JArr (map sanitize items)
  | JObj props =>
      JObj (map (λ kv, match kv with (k, x) => (k, sanitize x) end) props)
  | _ => v
  end.

Definition numeral (v : json (option Z)) : string :=
  Reference.pos_to_bits (encode (to_tree v)).

Definition stringify (v : json (option Z)) : string :=
  numeral (sanitize v).

Definition parse (s : string) : option (json (option Z)) :=
  match Reference.bits_to_pos s ≫= decode with
  | Some t =>
      let v := of_tree t in
      if Canon.canonical v then Some v else None
  | None => None
  end.

Definition runtime : Runtime := {|
  number := option Z;
  Number_isZero := λ n, bool_decide (n = Some 0%Z);
  Number_toString :=
    λ n, match n with
         | Some z => NilZero.string_of_int (Z.to_int z)
         | None => "Infinity"
         end;
  path_sep := "/";
  JSON_parse := parse;
  JSON_stringify := stringify;
  Number_isFinite := λ n, bool_decide (is_Some n);
|}.

End Overflow.

(** * Vocabulary of the properties

    What the statements below speak of: the notions of the
    specification, read off the file system and the host, and the
    closed forms of the loops of the program. *)

Section Vocabulary.
Context `{Runtime}.
Variable vscode : VSCode.

(** ** Path resolution *)

(** where the engine's build script is looked for *)
Definition markerPath (folder : string) : string :=
  Path.join [folder; "Engine"; "Build"; "BatchFiles"; "Build.bat"].

(** [folder] is a directory that can be listed, with these entries *)
Definition readable_folder (d : FileSystem) (folder : string)
    (files : list string) : Prop :=
  folder ≠ EmptyString ∧ nodes d !! folder = Some (Dir files) ∧
  folder ∉ denied d.

(** a project descriptor was found in [folder] *)
Definition has_descriptor (d : FileSystem) (folder : string) : Prop :=
  ∃ files u, readable_folder d folder files ∧ u ∈ files ∧
             Str.endsWith u ".uproject" = true.

(** the engine marker script was found under [folder] *)
Definition has_marker (d : FileSystem) (folder : string) : Prop :=
  (∃ files, readable_folder d folder files) ∧
  is_Some (nodes d !! markerPath folder).

(** what one turn of the loop leaves in the three variables *)
Definition scan_step (d : FileSystem) (acc : WorkspacePaths)
    (fsPath : string) : WorkspacePaths :=
  match Fs.statSync_isDirectory d fsPath, Fs.readdirSync d fsPath with
  | Ok true, Ok files =>
      let acc1 :=
        match List.find (λ f, Str.endsWith f ".uproject") files with
        | Some uproject =>
            {| projectRoot := fsPath; engineRoot := engineRoot acc;
               projectName := Path.parse_name uproject |}
        | None => acc
        end in
      if Fs.existsSync d (markerPath fsPath)
      then {| projectRoot := projectRoot acc1; engineRoot := fsPath;
              projectName := projectName acc1 |}
      else acc1
  | _, _ => acc
  end.

(** all the scan ever emits are console warnings *)
Definition only_warnings (evs : list Event) : Prop :=
  Forall (λ e, ∃ m, e = ConsoleWarn m) evs.

(** the three variables before the loop *)
Definition noPaths : WorkspacePaths :=
  {| projectRoot := ""; engineRoot := ""; projectName := "" |}.

(** the value [getWorkspacePaths] returns, as a function of the file
    system *)
Definition resolved (d : FileSystem) : option WorkspacePaths :=
  match workspaceFolders vscode with
  | None => None
  | Some folders =>
      let found := fold_left (scan_step d) folders noPaths in
      if Str.truthy (projectRoot found) && Str.truthy (engineRoot found)
         && Str.truthy (projectName found)
      then Some found else None
  end.

(** no folder of the workspace holds a project descriptor *)
Definition lacks_descriptor (d : FileSystem) (folders : list string) : Prop :=
  ∀ folder files u, folder ∈ folders →
    nodes d !! folder = Some (Dir files) → u ∈ files →
    Str.endsWith u ".uproject" = false.

(** no folder of the workspace holds the engine marker script *)
Definition lacks_marker (d : FileSystem) (folders : list string) : Prop :=
  ∀ folder, folder ∈ folders → nodes d !! markerPath folder = None.

(** the entries of [folder] when it can be listed *)
Definition listing (d : FileSystem) (folder : string) : option (list string) :=
  match Fs.statSync_isDirectory d folder, Fs.readdirSync d folder with
  | Ok true, Ok files => Some files
  | _, _ => None
  end.

(** every project descriptor of the workspace with its folder, in the
    order of the scan: folder by folder, entry by entry *)
Definition descriptors_in_scan_order (d : FileSystem)
    (folders : list string) : list (string * string) :=
  flat_map
    (λ folder,
       match listing d folder with
       | Some files =>
           map (λ u, (folder, u))
               (List.filter (λ f, Str.endsWith f ".uproject") files)
       | None => []
       end)
    folders.

(** ** Phantom errors *)

Definition is_lower (c : ascii) : bool :=
  (97 <=? N_of_ascii c)%N && (N_of_ascii c <=? 122)%N.

Definition starts_lower (s : string) : bool :=
  match s with
  | EmptyString => false
  | String c _ => is_lower c
  end.

(** the diagnostic carries the code [s], as a plain string or as the
    value of a structured code *)
Definition code_is (d : Diagnostic) (s : string) : Prop :=
  code d = CodeString s ∨ code d = CodeObject (ValueString s).

(** an error with one of the two fixed codes *)
Definition phantom (d : Diagnostic) : Prop :=
  severity d = Error ∧
  (code_is d "ovl_deleted_init" ∨ code_is d "missing_type_specifier").

(** ** Compile-database sync *)

Definition syncSource (paths : WorkspacePaths) : string :=
  Path.join [engineRoot paths; "compile_commands.json"].

Definition syncDest (paths : WorkspacePaths) : string :=
  Path.join [projectRoot paths; "compile_commands.json"].

Definition restart_requested (evs : list Event) : Prop :=
  ExecuteCommand "clangd.restart" ∈ evs.

Definition msgSynced : string :=
  "Synced compile_commands.json from Engine to Project.".

Definition msgCopyFailed : string :=
  "Failed to copy compile_commands.json. Check file permissions.".

Definition msgNoSource : string :=
  "compile_commands.json not found in Engine root. Did the generate task fail?".

(** ** Config install *)

Fixpoint last_char (s : string) : option ascii :=
  match s with
  | EmptyString => None
  | String a EmptyString => Some a
  | String _ s' => last_char s'
  end.

Definition clangdSrc (context : ExtensionContext) : string :=
  asAbsolutePath context (Path.join ["resources"; ".clangd"]).

Definition formatSrc (context : ExtensionContext) : string :=
  asAbsolutePath context (Path.join ["resources"; ".clang-format"]).

Definition projectClangd (paths : WorkspacePaths) : string :=
  Path.join [projectRoot paths; ".clangd"].

Definition projectFormat (paths : WorkspacePaths) : string :=
  Path.join [projectRoot paths; ".clang-format"].

Definition engineClangd (paths : WorkspacePaths) : string :=
  Path.join [engineRoot paths; ".clangd"].

Definition msgEngineWrite : string :=
  "Could not write .clangd to Engine root. Run VSCode as Admin if needed.".

(** ** Task injection *)

(** the label an entry of the task list carries, if it has one *)
Definition label_of (et : value) : option string :=
  match et with
  | JObj props =>
      match Js.assoc_get "label" props with
      | Some (JStr l) => Some l
      | _ => None
      end
  | _ => None
  end.

(** how many entries of [tasks] carry the label [l] *)
Definition count_label (l : string) (tasks : list value) : nat :=
  length (List.filter (λ et, bool_decide (label_of et = Some l)) tasks).

(** [tasks] after the callback of [forEach] ran for [nt] *)
Definition mergeTask (tasks : list value) (nt : TaskDefinition)
  : Result (list value) :=
  match Js.findIndex (sameLabel nt) tasks with
  | Throw e => Throw e
  | Ok idx => Ok (placeTask tasks idx nt)
  end.

(** [tasks] after [forEach] ran over [nts] *)
Fixpoint mergeTasks (tasks : list value) (nts : list TaskDefinition)
  : Result (list value) :=
  match nts with
  | [] => Ok tasks
  | nt :: rest =>
      match mergeTask tasks nt with
      | Ok tasks' => mergeTasks tasks' rest
      | Throw e => Throw e
      end
  end.

(** [nt] itself is the first entry of [tasks] that carries its label *)
Definition settled (nt : TaskDefinition) (tasks : list value) : Prop :=
  ∃ before after,
    tasks = before ++ task_json nt :: after ∧
    Forall (λ et, sameLabel nt et = Ok false) before.


(** [r] with its [tasks] property set to [v] *)
Definition with_tasks (r : Js.Ref) (v : value) : Js.Ref :=
  match Js.content r with
  | JObj props =>
      {| Js.content := JObj (Js.assoc_set "tasks" v props);
         Js.expando := Js.expando r |}
  | JArr _ =>
      {| Js.content := Js.content r;
         Js.expando := Js.assoc_set "tasks" v (Js.expando r) |}
  | _ => r
  end.

(** [newTasks.forEach(...)] on the manifest object *)
Fixpoint mergeAll (tasksJson : Js.Ref) (nts : list TaskDefinition)
  : Result Js.Ref :=
  match nts with
  | [] => Ok tasksJson
  | nt :: rest =>
      match updateOrAdd tasksJson nt with
      | Ok tasksJson' => mergeAll tasksJson' rest
      | Throw e => Throw e
      end
  end.

Definition msgParseFailed : string :=
  "UE Clangd Helper: Failed to parse existing tasks.json, creating new one.".

(** the directory step *)
Definition ensureDir (paths : WorkspacePaths) (d : FileSystem)
  : Result FileSystem :=
  if Fs.existsSync d (vscodeDir paths) then Ok d
  else Fs.mkdirSync d (vscodeDir paths).

(** what the [try] block computes from the file system *)
Definition loadTasksJson (paths : WorkspacePaths) (d : FileSystem)
  : Result Js.Ref :=
  match Fs.readFileSync d (tasksJsonPath paths) with
  | Throw e => Throw e
  | Ok content =>
      match JSON_parse content with
      | None => Throw SyntaxError
      | Some parsed =>
          match Js.getProp (Js.ref parsed) "tasks" with
          | Throw e => Throw e
          | Ok tasks =>
              if negb (Js.truthy tasks)
              then Js.setProp (Js.ref parsed) "tasks" (JArr [])
              else Ok (Js.ref parsed)
          end
      end
  end.

(** [tasksJson] before the merge, and what was logged to get it *)
Definition startTasksJson (paths : WorkspacePaths) (d : FileSystem)
  : Js.Ref * list Event :=
  if Fs.existsSync d (tasksJsonPath paths) then
    match loadTasksJson paths d with
    | Ok tasksJson => (tasksJson, [])
    | Throw _ => (defaultTasksJson, [ConsoleWarn msgParseFailed])
    end
  else (defaultTasksJson, []).

(** the manifest injection writes when it starts from the default *)
Definition freshManifest (paths : WorkspacePaths) : value :=
  JObj [ ("version", JStr "2.0.0");
         ("tasks", JArr (map task_json (newTasks paths))) ].

(** the labels of [newTasks] *)
Definition requiredLabels : list string :=
  [TASK_GENERATE; TASK_UHT; "Restart Clangd"; TASK_COMPOUND].




(** ** The save watcher *)

(** the one thing [triggerTask] does *)
Definition triggerEvent (taskName : string) : Event :=
  match List.find (λ t, String.eqb (name t) taskName) (fetchTasks vscode) with
  | Some task => ExecuteTask task
  | None =>
      ShowErrorMessage
        ("Task '" +:+ taskName +:+ "' not found. Try running Setup first.")
  end.

(** the saved file lies under [<projectRoot>/Source/] *)
Definition under_source_subtree (paths : WorkspacePaths)
    (fileName : string) : bool :=
  Str.startsWith fileName
    (Path.join [projectRoot paths; "Source"] +:+ path_sep).

(** the test the watcher makes on the saved file *)
Definition watcher_test (paths : WorkspacePaths) (doc : TextDocument) : bool :=
  Str.endsWith (fileName doc) ".h" &&
  Str.includes (fileName doc) (Path.join [projectRoot paths; "Source"]) &&
  hasPhantomErrors vscode (uri doc).

End Vocabulary.

(** * Example worlds, on the reference runtime *)

Module Examples.

#[local] Existing Instance Reference.runtime.

(** a workspace with a project folder and an engine folder *)
Definition paths0 : WorkspacePaths :=
  {| projectRoot := "/proj"; engineRoot := "/engine"; projectName := "Game" |}.

Definition nodes0 : gmap string node :=
  list_to_map
    [ ("/proj", Dir ["Source"; "Game.uproject"]);
      ("/proj/.vscode", Dir []);
      ("/engine", Dir ["Engine"; "compile_commands.json"]);
      ("/engine/Engine/Build/BatchFiles/Build.bat", File "");
      ("/engine/compile_commands.json", File "[]");
      ("/ext/resources/.clangd", File "CompileFlags:");
      ("/ext/resources/.clang-format", File "BasedOnStyle: LLVM") ].

Definition world0 : World :=
  {| fs := {| nodes := nodes0; denied := ∅ |}; events := [] |}.

Definition fixTask : Task := {| name := TASK_COMPOUND; source := "Workspace" |}.

Definition phantomDiagnostic : Diagnostic :=
  {| severity := Error; code := CodeObject (ValueString "ovl_deleted_init") |}.

Definition vscode0 : VSCode :=
  {| workspaceFolders := Some ["/proj"; "/engine"];
     config_get := λ _, true;
     getDiagnostics := λ _, [phantomDiagnostic];
     fetchTasks := [fixTask];
     commands := {["clangd.restart"]} |}.

Definition context0 : ExtensionContext := {| extensionPath := "/ext" |}.

(** an existing manifest with a task of the user's *)
Definition foo : value :=
  JObj [ ("label", JStr "Foo"); ("type", JStr "shell");
         ("command", JStr "echo") ].

Definition props1 : list (string * value) :=
  [ ("version", JStr "1.0.0"); ("tasks", JArr [foo]);
    ("inputs", JArr []) ].

Definition content1 : string := JSON_stringify (JObj props1).

Definition world1 : World :=
  {| fs := {| nodes := <["/proj/.vscode/tasks.json" := File content1]> nodes0;
              denied := ∅ |};
     events := [] |}.

(** an existing manifest that is not JSON *)
Definition world2 : World :=
  {| fs := {| nodes := <["/proj/.vscode/tasks.json" := File "{ // tasks"]> nodes0;
              denied := ∅ |};
     events := [] |}.

(** a project folder with two descriptors *)
Definition vscode3 : VSCode :=
  {| workspaceFolders := Some ["/ws"];
     config_get := λ _, true;
     getDiagnostics := λ _, [];
     fetchTasks := [];
     commands := ∅ |}.

Definition world3 : World :=
  {| fs := {| nodes :=
                list_to_map
                  [ ("/ws", Dir ["A.uproject"; "B.uproject"]);
                    ("/ws/Engine/Build/BatchFiles/Build.bat", File "") ];
              denied := ∅ |};
     events := [] |}.

(** a header in a sibling of the source folder *)
Definition sibling : TextDocument :=
  {| fileName := "/proj/SourceArchive/Old.h";
     uri := "file:///proj/SourceArchive/Old.h" |}.

End Examples.

(** * Vocabulary of the further properties *)

Section MoreVocabulary.
Context `{Runtime}.
Variable vscode : VSCode.

(** ** Path resolution *)

(** what the scan logs for a folder it could not read *)
Definition folderWarning (folder : string) : Event :=
  ConsoleWarn ("UE Clangd Helper: Failed to read folder " +:+ folder).

(** [folder] does not exist, or is a directory that cannot be listed *)
Definition cannot_read (d : FileSystem) (folder : string) : bool :=
  match Fs.node_at d folder with
  | None => true
  | Some (Dir _) => bool_decide (folder ∈ denied d)
  | Some (File _) => false
  end.

(** the workspace folders, none when there is no workspace *)
Definition folders_of : list string :=
  match workspaceFolders vscode with
  | Some folders => folders
  | None => []
  end.

Definition msgMissingPaths : string :=
  "Error: Engine or Project root not found in workspace. Please run 'Generate Visual Studio Code Project' from the Unreal Editor.".

Definition msgTemplates : string :=
  "Failed to read resource templates. Check extension installation.".

Definition msgSetup : string :=
  "UE Clangd Helper: Setup initiated. Build task running...".

(** the message of [triggerTask] for a task the host does not know *)
Definition msgNotFound (taskName : string) : string :=
  "Task '" +:+ taskName +:+ "' not found. Try running Setup first.".

(** the world once the folder scan has logged [scan] *)
Definition scanned (w : World) (scan : list Event) : World :=
  {| fs := fs w; events := events w ++ scan |}.

(** ** Task injection *)

(** there is a manifest, in its directory, that can be read and written
    and parses to the object with the properties [props] *)
Definition manifest_object (paths : WorkspacePaths) (d : FileSystem)
    (props : list (string * value)) : Prop :=
  Fs.existsSync d (vscodeDir paths) = true ∧
  (tasksJsonPath paths ∉ denied d) ∧
  ∃ content, nodes d !! tasksJsonPath paths = Some (File content) ∧
             JSON_parse content = Some (JObj props).

(** there is a manifest, in its directory, that can be read and written
    and parses to the value [v] *)
Definition manifest_value (paths : WorkspacePaths) (d : FileSystem)
    (v : value) : Prop :=
  Fs.existsSync d (vscodeDir paths) = true ∧
  (tasksJsonPath paths ∉ denied d) ∧
  ∃ content, nodes d !! tasksJsonPath paths = Some (File content) ∧
             JSON_parse content = Some v.

(** the world with [v] written out as the manifest *)
Definition written (paths : WorkspacePaths) (w : World) (v : value) : World :=
  {| fs := Fs.put (fs w) (tasksJsonPath paths) (File (JSON_stringify v));
     events := events w |}.

(** the definitions of [nts] whose label no entry of [tasks] carries *)
Definition missing (nts : list TaskDefinition) (tasks : list value)
  : list TaskDefinition :=
  List.filter (λ nt, Nat.eqb (count_label (label nt) tasks) 0) nts.

(** the entry of [tasks] at [i] carries the label [l], and none before
    it does *)
Definition first_with_label (l : string) (i : nat) (tasks : list value)
  : Prop :=
  (∃ et, tasks !! i = Some et ∧ label_of et = Some l) ∧
  ∀ j et, (j < i)%nat → tasks !! j = Some et → label_of et ≠ Some l.

(** ** Closed forms of the runs *)

(** the warnings of the folder scan *)
Definition scanLog (d : FileSystem) : list Event :=
  map folderWarning (List.filter (cannot_read d) folders_of).

(** what the loop has found so far lies in [all] and is what it is
    taken for *)
Definition found_ok (d : FileSystem) (all : list string)
    (acc : WorkspacePaths) : Prop :=
  (projectRoot acc = EmptyString ∨
   projectRoot acc ∈ all ∧
   ∃ files u, readable_folder d (projectRoot acc) files ∧
              List.find (λ f, Str.endsWith f ".uproject") files = Some u ∧
              projectName acc = Path.parse_name u) ∧
  (engineRoot acc = EmptyString ∨
   engineRoot acc ∈ all ∧ has_marker d (engineRoot acc)).

(** what is shown and logged when a template cannot be installed *)
Definition templatesError : list Event :=
  [ShowErrorMessage msgTemplates; ConsoleError].

(** the world after the config step of setup *)
Definition configured (context : ExtensionContext) (paths : WorkspacePaths)
    (w : World) : World :=
  if config_get vscode "generateConfigs"
  then (generateConfigs context paths w).2
  else w.

(** what [syncCompileCommands] does after the folder scan *)
Definition syncOutcome (paths : WorkspacePaths) (d : FileSystem)
  : FileSystem * list Event :=
  if Fs.existsSync d (syncSource paths) then
    match Fs.copyFileSync d (syncSource paths) (syncDest paths) with
    | Ok d' =>
        (d', ShowInformationMessage msgSynced ::
             ExecuteCommand "clangd.restart" ::
             (if decide ("clangd.restart" ∈ commands vscode) then []
              else [ShowErrorMessage msgCopyFailed]))
    | Throw _ => (d, [ShowErrorMessage msgCopyFailed])
    end
  else (d, [ShowWarningMessage msgNoSource]).

(** [tasksJson] after the [if (!tasksJson.tasks)] of the [try] block,
    for the parsed value [v] *)
Definition prepared (v : value) : Result Js.Ref :=
  match Js.getProp (Js.ref v) "tasks" with
  | Throw e => Throw e
  | Ok tasks =>
      if negb (Js.truthy tasks)
      then Js.setProp (Js.ref v) "tasks" (JArr [])
      else Ok (Js.ref v)
  end.

(** the fresh manifest, written out: the default of lines 191-194
    with the four definitions of lines 150-179 *)
Definition requiredManifest (paths : WorkspacePaths) : value :=
  JObj
    [ ("version", JStr "2.0.0");
      ("tasks",
       JArr
         [ JObj
             [ ("label", JStr "Generate Clang CompileCommands");
               ("type", JStr "shell");
               ("command",
                JStr (Path.join [engineRoot paths; "Engine"; "Build";
                                 "BatchFiles"; "Build.bat"]));
               ("args",
                JArr
                  [ JStr (projectName paths +:+ "Editor"); JStr "Win64";
                    JStr "Development";
                    JStr ("-project=" +:+
                          Path.join [projectRoot paths;
                                     projectName paths +:+ ".uproject"]);
                    JStr "-mode=GenerateClangDatabase"; JStr "-game";
                    JStr "-rocket"; JStr "-progress";
                    JStr "-UsePrecompiled" ]);
               ("group", JStr "build");
               ("problemMatcher", JArr []) ];
           JObj
             [ ("label", JStr "Refresh UHT Generated Headers");
               ("type", JStr "shell");
               ("command",
                JStr (Path.join [engineRoot paths; "Engine"; "Build";
                                 "BatchFiles"; "Build.bat"]));
               ("args",
                JArr
                  [ JStr "-Mode=UnrealHeaderTool";
                    JStr (Path.join [projectRoot paths;
                                     projectName paths +:+ ".uproject"]);
                    JStr (Path.join
                            [projectRoot paths; "Intermediate"; "Build";
                             "Win64"; projectName paths +:+ "Editor";
                             "Development";
                             projectName paths +:+ "Editor.uhtmanifest"]);
                    JStr "-WarningsAsErrors" ]);
               ("problemMatcher", JStr "$msCompile");
               ("presentation",
                JObj [ ("reveal", JStr "silent");
                       ("panel", JStr "shared") ]) ];
           JObj
             [ ("label", JStr "Restart Clangd");
               ("command", JStr "${command:clangd.restart}");
               ("problemMatcher", JArr []) ];
           JObj
             [ ("label", JStr "Fix Header False Errors");
               ("dependsOn",
                JArr [ JStr "Refresh UHT Generated Headers";
                       JStr "Restart Clangd" ]);
               ("dependsOrder", JStr "sequence");
               ("group",
                JObj [ ("kind", JStr "build");
                       ("isDefault", JBool false) ]);
               ("problemMatcher", JArr []) ] ]) ].

End MoreVocabulary.

(** * Further example worlds *)

Module MoreExamples.

#[local] Existing Instance Reference.runtime.

(** a workspace without an engine folder *)
Definition vscode4 : VSCode :=
  {| workspaceFolders := Some ["/proj"; "/gone"];
     config_get := λ _, true;
     getDiagnostics := λ _, [];
     fetchTasks := [];
     commands := ∅ |}.

(** the host without the language-server extension *)
Definition vscode5 : VSCode :=
  {| workspaceFolders := Some ["/proj"; "/engine"];
     config_get := λ _, true;
     getDiagnostics := λ _, [];
     fetchTasks := [Examples.fixTask];
     commands := ∅ |}.

(** the extension's templates are gone *)
Definition world4 : World :=
  {| fs := {| nodes := delete "/ext/resources/.clangd" Examples.nodes0;
              denied := ∅ |};
     events := [] |}.

(** an existing manifest with an old generate task, twice, and a task of
    the user's between them *)
Definition oldGenerate : value :=
  JObj [ ("label", JStr TASK_GENERATE); ("command", JStr "old") ].

Definition props5 : list (string * value) :=
  [ ("version", JStr "2.0.0");
    ("tasks", JArr [oldGenerate; Examples.foo; oldGenerate]) ].

Definition manifestWorld (v : value) : World :=
  {| fs := {| nodes := <["/proj/.vscode/tasks.json" := File (JSON_stringify v)]>
                         Examples.nodes0;
              denied := ∅ |};
     events := [] |}.

Definition world5 : World := manifestWorld (JObj props5).

(** the project's config file cannot be written *)
Definition world6 : World :=
  {| fs := {| nodes := Examples.nodes0; denied := {["/proj/.clangd"]} |};
     events := [] |}.

(** the engine root cannot be written *)
Definition world9 : World :=
  {| fs := {| nodes := Examples.nodes0; denied := {["/engine/.clangd"]} |};
     events := [] |}.

(** the project has no [.vscode] directory yet *)
Definition world7 : World :=
  {| fs := {| nodes := delete "/proj/.vscode" Examples.nodes0; denied := ∅ |};
     events := [] |}.

(** manifests whose task list is no list, holds a [null], or is absent *)
Definition propsText : list (string * value) :=
  [ ("version", JStr "2.0.0"); ("tasks", JStr "none") ].

Definition propsNull : list (string * value) :=
  [ ("version", JStr "2.0.0"); ("tasks", JArr [Examples.foo; JNull]) ].

Definition propsBare : list (string * value) :=
  [ ("version", JStr "2.0.0"); ("inputs", JArr []) ].

(** three folders: an old project, a project folder whose listing has
    a file and then two descriptors, and the engine *)
Definition vscode8 : VSCode :=
  {| workspaceFolders := Some ["/old"; "/ws"; "/engine"];
     config_get := λ _, true;
     getDiagnostics := λ _, [];
     fetchTasks := [];
     commands := ∅ |}.

Definition world8 : World :=
  {| fs := {| nodes :=
                list_to_map
                  [ ("/old", Dir ["Old.uproject"]);
                    ("/ws", Dir ["Readme.md"; "A.uproject"; "B.uproject"]);
                    ("/engine", Dir ["Engine"]);
                    ("/engine/Engine/Build/BatchFiles/Build.bat", File "") ];
              denied := ∅ |};
     events := [] |}.

End MoreExamples.

(** * An example manifest with a number beyond the double range *)

Module OverflowExamples.

(** what [{"version": 1e400, "tasks": []}] parses to *)
Definition props : list (string * json (option Z)) :=
  [ ("version", JNum None); ("tasks", JArr []) ].

(** a text that parses to it *)
Definition content : string := Overflow.numeral (JObj props).


End OverflowExamples.

(** * Properties *)

(** ** Strings and paths *)

Lemma truthy_nonempty s : Str.truthy s = true ↔ s ≠ EmptyString.
Proof. destruct s; simpl; split; congruence. Qed.

Lemma endsWith_nonempty s c suffix :
  Str.endsWith s (String c suffix) = true → Str.truthy s = true.
Proof.
  unfold Str.endsWith. destruct s; [|done].
  rewrite andb_true_iff, bool_decide_eq_true. simpl. lia.
Qed.

Lemma parse_name_truthy base :
  Str.truthy base = true → Str.truthy (Path.parse_name base) = true.
Proof.
  intros Hb. unfold Path.parse_name.
  destruct (String.eqb base ".."); [done|].
  destruct (Str.lastIndexOf "." base) as [[|n]|]; [done| |done].
  by destruct base.
Qed.

Lemma find_first {A} (p : A → bool) xs u ys :
  Forall (λ x, p x = false) xs → p u = true →
  List.find p (xs ++ u :: ys) = Some u.
Proof.
  induction 1 as [|x xs Hx _ IH]; simpl; intros Hu.
  - by rewrite Hu.
  - rewrite Hx. by apply IH.
Qed.

(** ** Path resolution *)

Section PathResolution.
Context `{Runtime}.
Variable vscode : VSCode.

Lemma scanFolder_run acc fsPath w :
  ∃ evs, only_warnings evs ∧
    scanFolder acc fsPath w =
    (Ok (scan_step (fs w) acc fsPath),
     {| fs := fs w; events := events w ++ evs |}).
Proof.
  unfold scanFolder, scan_step, Eff.try_catch, Eff.bind, Eff.reads, Eff.ret,
    Eff.emit, markerPath.
  destruct w as [d evs0]; simpl.
  destruct (Fs.statSync_isDirectory d fsPath) as [[|]|e]; simpl.
  - destruct (Fs.readdirSync d fsPath) as [files|e]; simpl.
    + exists []. split; [constructor|]. by rewrite app_nil_r.
    + eexists [_]. split; [|done]. repeat constructor. eauto.
  - exists []. split; [constructor|]. by rewrite app_nil_r.
  - eexists [_]. split; [|done]. repeat constructor. eauto.
Qed.

Lemma scanFolders_run folders acc w :
  ∃ evs, only_warnings evs ∧
    Eff.foldM scanFolder folders acc w =
    (Ok (fold_left (scan_step (fs w)) folders acc),
     {| fs := fs w; events := events w ++ evs |}).
Proof.
  revert acc w. induction folders as [|f folders IH]; intros acc w; simpl.
  - exists []. split; [constructor|]. rewrite app_nil_r. by destruct w.
  - unfold Eff.bind.
    destruct (scanFolder_run acc f w) as (evs1 & Hw1 & ->).
    destruct (IH (scan_step (fs w) acc f)
                {| fs := fs w; events := events w ++ evs1 |})
      as (evs2 & Hw2 & ->); simpl.
    exists (evs1 ++ evs2). split; [by apply Forall_app|].
    by rewrite app_assoc.
Qed.

Lemma getWorkspacePaths_run w :
  ∃ evs, only_warnings evs ∧
    getWorkspacePaths vscode w =
    (Ok (resolved vscode (fs w)), {| fs := fs w; events := events w ++ evs |}).
Proof.
  unfold getWorkspacePaths, resolved.
  destruct (workspaceFolders vscode) as [folders|].
  - unfold Eff.bind.
    destruct (scanFolders_run folders noPaths w) as (evs & Hw & Hrun).
    fold noPaths. rewrite Hrun. exists evs. split; [done|].
    by destruct (_ && _).
  - exists []. split; [constructor|]. rewrite app_nil_r. by destruct w.
Qed.

Lemma existsSync_true d p :
  Fs.existsSync d p = true ↔ p ≠ EmptyString ∧ is_Some (nodes d !! p).
Proof.
  unfold Fs.existsSync, Fs.node_at. destruct p as [|c p]; simpl.
  - split; [done|]. by intros [? _].
  - destruct (nodes d !! String c p) as [n|].
    + split; [|done]. intros _. split; [done|by eexists].
    + split; [done|]. intros [_ [? ?]]. done.
Qed.

Lemma markerPath_nonempty folder :
  folder ≠ EmptyString → markerPath folder ≠ EmptyString.
Proof. by destruct folder. Qed.

(** one turn of the loop, by whether the folder could be listed *)
Lemma scan_step_readable d acc folder files :
  readable_folder d folder files →
  scan_step d acc folder =
    let acc1 :=
      match List.find (λ f, Str.endsWith f ".uproject") files with
      | Some uproject =>
          {| projectRoot := folder; engineRoot := engineRoot acc;
             projectName := Path.parse_name uproject |}
      | None => acc
      end in
    if Fs.existsSync d (markerPath folder)
    then {| projectRoot := projectRoot acc1; engineRoot := folder;
            projectName := projectName acc1 |}
    else acc1.
Proof.
  intros (Hne & Hdir & Hok). unfold scan_step, Fs.statSync_isDirectory,
    Fs.readdirSync, Fs.node_at.
  apply truthy_nonempty in Hne. rewrite Hne, Hdir.
  by rewrite decide_False.
Qed.

Lemma scan_step_unreadable d acc folder :
  (∀ files, ¬ readable_folder d folder files) →
  scan_step d acc folder = acc.
Proof.
  intros Hno. unfold scan_step, Fs.statSync_isDirectory, Fs.readdirSync,
    Fs.node_at.
  destruct (Str.truthy folder) eqn:Hne; [|done].
  destruct (nodes d !! folder) as [[c|files]|] eqn:Hn; try done.
  destruct (decide (folder ∈ denied d)) as [|Hok]; [done|].
  destruct (Hno files). split; [by apply truthy_nonempty|done].
Qed.

Lemma readable_folder_dec d folder :
  (∃ files, readable_folder d folder files) ∨
  (∀ files, ¬ readable_folder d folder files).
Proof.
  unfold readable_folder.
  destruct (decide (folder = EmptyString)) as [->|Hne];
    [right; by intros ? [? _]|].
  destruct (decide (folder ∈ denied d)) as [Hd|Hd];
    [right; by intros ? (_ & _ & ?)|].
  destruct (nodes d !! folder) as [[c|files]|] eqn:Hn;
    [right; by intros ? (_ & ? & _) | left; by exists files
    | right; by intros ? (_ & ? & _)].
Qed.

Lemma readable_folder_inj d folder files1 files2 :
  readable_folder d folder files1 → readable_folder d folder files2 →
  files1 = files2.
Proof. intros (_ & H1 & _) (_ & H2 & _). congruence. Qed.

Lemma find_descriptor d folder files :
  readable_folder d folder files →
  is_Some (List.find (λ f, Str.endsWith f ".uproject") files) ↔
  has_descriptor d folder.
Proof.
  intros Hr. split.
  - intros [u Hu]. apply find_some in Hu as [Hin Hu].
    exists files, u. by rewrite list_elem_of_In.
  - intros (files' & u & Hr' & Hin & Hu).
    rewrite <- (readable_folder_inj _ _ _ _ Hr Hr') in Hin.
    destruct (List.find _ files) eqn:Hf; [by eexists|].
    apply list_elem_of_In in Hin.
    pose proof (find_none _ _ Hf u Hin) as Hn. simpl in Hn. congruence.
Qed.

(** the project root and the project name are set together, by a
    descriptor; the engine root by the marker *)
Lemma scan_step_project d acc folder :
  (Str.truthy (projectRoot (scan_step d acc folder)) = true ↔
     Str.truthy (projectRoot acc) = true ∨ has_descriptor d folder) ∧
  (Str.truthy (projectName (scan_step d acc folder)) = true ↔
     Str.truthy (projectName acc) = true ∨ has_descriptor d folder) ∧
  (Str.truthy (engineRoot (scan_step d acc folder)) = true ↔
     Str.truthy (engineRoot acc) = true ∨ has_marker d folder).
Proof.
  destruct (readable_folder_dec d folder) as [[files Hr]|Hno].
  - rewrite (scan_step_readable _ _ _ _ Hr).
    pose proof (find_descriptor _ _ _ Hr) as Hfind.
    assert (Hm : Fs.existsSync d (markerPath folder) = true ↔
                 has_marker d folder).
    { rewrite existsSync_true. unfold has_marker. split.
      - intros [_ ?]. split; [by exists files|done].
      - intros [_ ?]. split; [|done].
        apply markerPath_nonempty. by destruct Hr. }
    assert (Hf : Str.truthy folder = true)
      by (apply truthy_nonempty; by destruct Hr).
    destruct (List.find _ files) as [u|] eqn:Hu.
    + assert (Hd : has_descriptor d folder) by (apply Hfind; by eexists).
      assert (Hname : Str.truthy (Path.parse_name u) = true).
      { apply find_some in Hu as [_ Hu]. apply parse_name_truthy.
        by eapply endsWith_nonempty. }
      cbv zeta.
      destruct (Fs.existsSync d (markerPath folder)); simpl;
        rewrite ?Hf, ?Hname; intuition auto; discriminate.
    + assert (Hd : ¬ has_descriptor d folder).
      { intros Hd. apply Hfind in Hd as [? ?]. done. }
      cbv zeta.
      destruct (Fs.existsSync d (markerPath folder)); simpl;
        rewrite ?Hf; intuition auto; discriminate.
  - rewrite (scan_step_unreadable _ _ _ Hno).
    assert (¬ has_descriptor d folder).
    { intros (files & _ & Hr & _). by apply (Hno files). }
    assert (¬ has_marker d folder).
    { intros [[files Hr] _]. by apply (Hno files). }
    tauto.
Qed.

Lemma scan_all_found d folders acc :
  let found := fold_left (scan_step d) folders acc in
  (Str.truthy (projectRoot found) = true ↔
     Str.truthy (projectRoot acc) = true ∨ Exists (has_descriptor d) folders) ∧
  (Str.truthy (projectName found) = true ↔
     Str.truthy (projectName acc) = true ∨ Exists (has_descriptor d) folders) ∧
  (Str.truthy (engineRoot found) = true ↔
     Str.truthy (engineRoot acc) = true ∨ Exists (has_marker d) folders).
Proof.
  revert acc. induction folders as [|f folders IH]; intros acc; simpl.
  - rewrite !Exists_nil. tauto.
  - destruct (IH (scan_step d acc f)) as (IH1 & IH2 & IH3).
    destruct (scan_step_project d acc f) as (S1 & S2 & S3).
    rewrite !Exists_cons. tauto.
Qed.

Lemma resolved_iff d :
  is_Some (resolved vscode d) ↔
  ∃ folders, workspaceFolders vscode = Some folders ∧
             Exists (has_descriptor d) folders ∧
             Exists (has_marker d) folders.
Proof.
  unfold resolved. destruct (workspaceFolders vscode) as [folders|].
  - destruct (scan_all_found d folders noPaths) as (F1 & F2 & F3).
    simpl in F1, F2, F3.
    set (found := fold_left (scan_step d) folders noPaths) in *.
    assert (Hc : Str.truthy (projectRoot found) && Str.truthy (engineRoot found)
                 && Str.truthy (projectName found) = true ↔
                 Exists (has_descriptor d) folders ∧
                 Exists (has_marker d) folders).
    { rewrite !andb_true_iff, F1, F2, F3. intuition discriminate. }
    destruct (_ && _); split.
    + intros _. exists folders. split; [done|]. by apply Hc.
    + by eexists.
    + by intros [? ?].
    + intros (? & [= <-] & Hd & Hm).
      assert (false = true) by (by apply Hc). discriminate.
  - split; [by intros [? ?]|]. by intros (? & ? & _).
Qed.

(** C4: path resolution never throws; its result is present exactly
    when a project descriptor (which gives the project root and the
    project name together) and the engine marker (which gives the
    engine root) were both found in the scanned folders; in particular
    it is absent for every workspace that lacks a descriptor or lacks
    the marker. *)
Theorem getWorkspacePaths_present_iff (w : World) :
  ((∃ paths, (getWorkspacePaths vscode w).1 = Ok (Some paths)) ↔
   (∃ folders, workspaceFolders vscode = Some folders ∧
               Exists (has_descriptor (fs w)) folders ∧
               Exists (has_marker (fs w)) folders)) ∧
  ((getWorkspacePaths vscode w).1 = Ok None ∨
   (∃ paths, (getWorkspacePaths vscode w).1 = Ok (Some paths))) ∧
  (∀ folders, workspaceFolders vscode = Some folders →
     lacks_descriptor (fs w) folders ∨ lacks_marker (fs w) folders →
     (getWorkspacePaths vscode w).1 = Ok None).
Proof.
  destruct (getWorkspacePaths_run w) as (evs & _ & ->). simpl.
  pose proof (resolved_iff (fs w)) as Hiff.
  split; [|split].
  - rewrite <- Hiff. split.
    + intros [p [= ->]]. by eexists.
    + intros [p ->]. by eexists.
  - destruct (resolved vscode (fs w)); eauto.
  - intros folders Hws Hlack.
    destruct (resolved vscode (fs w)) as [p|] eqn:Hres; [|done]. exfalso.
    destruct Hiff as [Hiff _].
    destruct Hiff as (folders' & Hws' & Hd & Hm); [by eexists|].
    assert (folders' = folders) as -> by congruence.
    destruct Hlack as [Hl|Hl].
    + apply Exists_exists in Hd as (f & Hin & files & u & Hr & Hu & He).
      destruct Hr as (_ & Hdir & _).
      rewrite (Hl f files u Hin Hdir Hu) in He. discriminate.
    + apply Exists_exists in Hm as (f & Hin & _ & [x Hx]).
      rewrite (Hl f Hin) in Hx. discriminate.
Qed.

Lemma scan_step_no_descriptor d acc folder :
  ¬ has_descriptor d folder →
  projectRoot (scan_step d acc folder) = projectRoot acc ∧
  projectName (scan_step d acc folder) = projectName acc.
Proof.
  intros Hd. destruct (readable_folder_dec d folder) as [[files Hr]|Hno].
  - rewrite (scan_step_readable _ _ _ _ Hr).
    destruct (List.find _ files) as [u|] eqn:Hu.
    + destruct Hd. apply (find_descriptor _ _ _ Hr). rewrite Hu. by eexists.
    + cbv zeta. by destruct (Fs.existsSync d (markerPath folder)).
  - by rewrite (scan_step_unreadable _ _ _ Hno).
Qed.

Lemma scan_all_no_descriptor d folders acc :
  Forall (λ f, ¬ has_descriptor d f) folders →
  projectRoot (fold_left (scan_step d) folders acc) = projectRoot acc ∧
  projectName (fold_left (scan_step d) folders acc) = projectName acc.
Proof.
  intros Hall. revert acc.
  induction Hall as [|f folders Hf _ IH]; intros acc; simpl; [done|].
  destruct (IH (scan_step d acc f)) as [-> ->].
  by apply scan_step_no_descriptor.
Qed.

(** C5, amended: among the folders the last one (in workspace order)
    that holds a descriptor gives the project root, and within that
    folder the first descriptor of the directory listing gives the
    project name. *)
Theorem getWorkspacePaths_descriptor_choice
    (w : World) (before after : list string) (folder : string)
    (earlier later : list string) (u : string) :
  workspaceFolders vscode = Some (before ++ folder :: after) →
  readable_folder (fs w) folder (earlier ++ u :: later) →
  Forall (λ f, Str.endsWith f ".uproject" = false) earlier →
  Str.endsWith u ".uproject" = true →
  Forall (λ f, ¬ has_descriptor (fs w) f) after →
  Exists (has_marker (fs w)) (before ++ folder :: after) →
  ∃ paths, (getWorkspacePaths vscode w).1 = Ok (Some paths) ∧
           projectRoot paths = folder ∧
           projectName paths = Path.parse_name u.
Proof.
  intros Hws Hr Hearlier Hu Hafter Hmarker.
  destruct (getWorkspacePaths_run w) as (evs & _ & ->). simpl.
  assert (Hsome : is_Some (resolved vscode (fs w))).
  { apply resolved_iff. eexists. split; [done|]. split; [|done].
    apply Exists_app. right. apply Exists_cons. left.
    exists (earlier ++ u :: later), u. split; [done|]. split; [|done].
    apply elem_of_app. right. by left. }
  destruct Hsome as [paths Hres]. exists paths. split; [by rewrite Hres|].
  unfold resolved in Hres. rewrite Hws in Hres.
  destruct (_ && _); [|done]. injection Hres as <-.
  rewrite fold_left_app. simpl.
  destruct (scan_all_no_descriptor (fs w) after
              (scan_step (fs w) (fold_left (scan_step (fs w)) before noPaths)
                         folder) Hafter) as [-> ->].
  rewrite (scan_step_readable _ _ _ _ Hr).
  rewrite (find_first _ _ _ _ Hearlier Hu). cbv zeta.
  by destruct (Fs.existsSync (fs w) (markerPath folder)).
Qed.

End PathResolution.

(** ** Phantom-error detection *)

Section PhantomErrors.
Context `{Runtime}.
Variable vscode : VSCode.

(** [String(n)] is a numeral, [NaN] or [Infinity]: it never starts with
    a lower-case letter. *)
Hypothesis Number_toString_numeral :
  ∀ n : number, starts_lower (Number_toString n) = false.

Lemma errorCode_code_is d s :
  starts_lower s = true → errorCode d = s ↔ code_is d s.
Proof using Number_toString_numeral.
  intros Hs. unfold errorCode, code_is.
  destruct (code d) as [|t|n|[t|n]]; split;
    try (intros <-; discriminate);
    try (intros [?|?]; congruence);
    try (intros ->; by eauto).
  intros <-. by rewrite Number_toString_numeral in Hs.
Qed.

Lemma phantom_test d :
  match severity d with Error => true | _ => false end &&
  (String.eqb (errorCode d) "ovl_deleted_init" ||
   String.eqb (errorCode d) "missing_type_specifier") = true ↔ phantom d.
Proof using Number_toString_numeral.
  unfold phantom.
  rewrite andb_true_iff, orb_true_iff, !String.eqb_eq.
  rewrite !errorCode_code_is by done.
  destruct (severity d); intuition discriminate.
Qed.

(** C6: phantom-error detection is a function of the host's
    diagnostics for the file alone (it takes and returns no world); it
    is true exactly when some diagnostic is an error whose code, plain
    or structured, is one of the two fixed codes; hence false without
    diagnostics, with warnings only, and with other codes only. *)
Theorem hasPhantomErrors_iff (fileUri : string) :
  (hasPhantomErrors vscode fileUri = true ↔
   ∃ d, d ∈ getDiagnostics vscode fileUri ∧ phantom d) ∧
  (getDiagnostics vscode fileUri = [] →
   hasPhantomErrors vscode fileUri = false) ∧
  (Forall (λ d, severity d = Warning) (getDiagnostics vscode fileUri) →
   hasPhantomErrors vscode fileUri = false) ∧
  (Forall (λ d, ¬ code_is d "ovl_deleted_init" ∧
                ¬ code_is d "missing_type_specifier")
          (getDiagnostics vscode fileUri) →
   hasPhantomErrors vscode fileUri = false).
Proof using Number_toString_numeral.
  assert (Hiff : hasPhantomErrors vscode fileUri = true ↔
                 ∃ d, d ∈ getDiagnostics vscode fileUri ∧ phantom d).
  { unfold hasPhantomErrors. rewrite existsb_exists.
    split; intros (d & Hin & Hd); exists d.
    - split; [by apply list_elem_of_In|by apply phantom_test].
    - split; [by apply list_elem_of_In|by apply phantom_test]. }
  split; [done|].
  assert (Hno : (∀ d, d ∈ getDiagnostics vscode fileUri → ¬ phantom d) →
                hasPhantomErrors vscode fileUri = false).
  { intros Hall. apply not_true_is_false. intros Ht.
    apply Hiff in Ht as (d & Hin & Hd). by apply (Hall d). }
  split; [|split].
  - intros Hnil. apply Hno. rewrite Hnil. by intros d ?%elem_of_nil.
  - intros Hall. apply Hno. intros d Hin [Hsev _].
    rewrite Forall_forall in Hall. specialize (Hall d Hin). congruence.
  - intros Hall. apply Hno. intros d Hin [_ Hcode].
    rewrite Forall_forall in Hall. specialize (Hall d Hin). tauto.
Qed.

End PhantomErrors.

(** ** Compile-database sync *)

Lemma copyFileSync_ok d source dest d' :
  Fs.copyFileSync d source dest = Ok d' →
  ∃ c, nodes d !! source = Some (File c) ∧ d' = Fs.put d dest (File c).
Proof.
  unfold Fs.copyFileSync, Fs.readFileSync, Fs.writeFileSync, Fs.node_at.
  destruct (Str.truthy source); [|done].
  destruct (nodes d !! source) as [[c|?]|]; try done.
  destruct (decide (source ∈ denied d)); [done|].
  destruct (negb (Str.truthy dest)); [done|].
  destruct (decide (dest ∈ denied d)); [done|].
  destruct (nodes d !! dest) as [[?|?]|]; intros [= <-]; eauto.
Qed.

Lemma insert_lookup_same (m : gmap string node) p n q :
  m !! q = Some n → <[p := n]> m !! q = Some n.
Proof.
  intros Hq. destruct (decide (p = q)) as [->|Hne];
    [by rewrite lookup_insert_eq|by rewrite lookup_insert_ne].
Qed.

Lemma put_lookup_same d p n q :
  nodes d !! q = Some n → nodes (Fs.put d p n) !! q = Some n.
Proof. apply insert_lookup_same. Qed.

Section Sync.
Context `{Runtime}.
Variable vscode : VSCode.

(** the run of [syncCompileCommands] once the paths are resolved,
    [scan] being what the folder scan logged *)
Lemma syncCompileCommands_run w paths :
  resolved vscode (fs w) = Some paths →
  ∃ scan, only_warnings scan ∧
    syncCompileCommands vscode w =
    (Ok tt,
     if Fs.existsSync (fs w) (syncSource paths) then
       match Fs.copyFileSync (fs w) (syncSource paths) (syncDest paths) with
       | Ok d' =>
           {| fs := d';
              events := events w ++ scan ++
                ShowInformationMessage msgSynced ::
                ExecuteCommand "clangd.restart" ::
                (if decide ("clangd.restart" ∈ commands vscode) then []
                 else [ShowErrorMessage msgCopyFailed]) |}
       | Throw _ =>
           {| fs := fs w;
              events := events w ++ scan ++ [ShowErrorMessage msgCopyFailed] |}
       end
     else {| fs := fs w;
             events := events w ++ scan ++ [ShowWarningMessage msgNoSource] |}).
Proof.
  intros Hres. unfold syncCompileCommands, Eff.bind.
  destruct (getWorkspacePaths_run vscode w) as (scan & Hscan & ->).
  rewrite Hres. exists scan. split; [done|].
  fold (syncSource paths) (syncDest paths).
  unfold Eff.reads, Eff.try_catch, Eff.bind, Eff.writes, Eff.emit,
    executeCommand, Eff.bind, Eff.emit, Eff.ret, Eff.throw.
  cbn [fs events].
  destruct (Fs.existsSync (fs w) (syncSource paths)); cbn [fs events].
  - destruct (Fs.copyFileSync (fs w) (syncSource paths) (syncDest paths));
      cbn [fs events].
    + destruct (decide ("clangd.restart" ∈ commands vscode));
        cbn [fs events]; by rewrite <- !app_assoc.
    + by rewrite <- !app_assoc.
  - by rewrite <- !app_assoc.
Qed.

(** C8: with the paths resolved, (a) when the database is present
    under the engine root and the copy succeeds, the destination under
    the project root then holds the bytes of the source and the restart
    of the language server is requested after it; (b) when the source
    is absent the file system is left as it was and a warning is shown;
    (c) when the copy fails an error is shown and no restart is
    requested. *)
Theorem syncCompileCommands_spec (w : World) (paths : WorkspacePaths) :
  resolved vscode (fs w) = Some paths →
  ∃ scan after : list Event,
    only_warnings scan ∧
    events (syncCompileCommands vscode w).2 = events w ++ scan ++ after ∧
    (∀ d', Fs.existsSync (fs w) (syncSource paths) = true →
           Fs.copyFileSync (fs w) (syncSource paths) (syncDest paths) = Ok d' →
       fs (syncCompileCommands vscode w).2 = d' ∧
       (∃ bytes,
          nodes (fs w) !! syncSource paths = Some (File bytes) ∧
          nodes d' !! syncSource paths = Some (File bytes) ∧
          nodes d' !! syncDest paths = Some (File bytes)) ∧
       ∃ rest,
         after = ShowInformationMessage msgSynced
                 :: ExecuteCommand "clangd.restart" :: rest) ∧
    (Fs.existsSync (fs w) (syncSource paths) = false →
       fs (syncCompileCommands vscode w).2 = fs w ∧
       after = [ShowWarningMessage msgNoSource]) ∧
    (∀ e, Fs.existsSync (fs w) (syncSource paths) = true →
          Fs.copyFileSync (fs w) (syncSource paths) (syncDest paths) = Throw e →
       fs (syncCompileCommands vscode w).2 = fs w ∧
       after = [ShowErrorMessage msgCopyFailed] ∧
       ¬ restart_requested after).
Proof.
  intros Hres.
  destruct (syncCompileCommands_run w paths Hres) as (scan & Hscan & ->).
  exists scan. cbn [snd].
  destruct (Fs.existsSync (fs w) (syncSource paths)).
  - destruct (Fs.copyFileSync (fs w) (syncSource paths) (syncDest paths))
      as [d'|e] eqn:Hcopy.
    + eexists. split; [done|]. split; [done|].
      split; [|split; [done|by intros]].
      intros d'' _ [= <-]. split; [done|].
      apply copyFileSync_ok in Hcopy as (c & Hsrc & ->).
      split; [|by eexists].
      exists c. split; [done|]. split; [by apply put_lookup_same|].
      apply lookup_insert_eq.
    + eexists. split; [done|]. split; [done|].
      split; [by intros|]. split; [done|].
      intros e' _ _. split; [done|]. split; [done|].
      unfold restart_requested. rewrite list_elem_of_singleton. done.
  - eexists. split; [done|]. split; [done|].
    split; [by intros|]. split; [done|by intros].
Qed.

End Sync.

(** ** Config install *)

Lemma last_char_append s t :
  t ≠ EmptyString → last_char (s +:+ t) = last_char t.
Proof.
  intros Ht. induction s as [|a s IH]; [done|].
  change (String a s +:+ t) with (String a (s +:+ t)). simpl.
  destruct (s +:+ t) eqn:Hst; [|done].
  by destruct s, t.
Qed.

Lemma writeFileSync_ok d p c d' :
  Fs.writeFileSync d p c = Ok d' → d' = Fs.put d p (File c).
Proof.
  unfold Fs.writeFileSync.
  destruct (negb (Str.truthy p)); [done|].
  destruct (decide (p ∈ denied d)); [done|].
  by destruct (nodes d !! p) as [[?|?]|]; intros [= <-].
Qed.

Section ConfigInstall.
Context `{Runtime}.

Lemma last_char_join dir c base :
  last_char (dir +:+ path_sep +:+ String c base) = last_char (String c base).
Proof.
  rewrite last_char_append by (by destruct path_sep).
  by apply last_char_append.
Qed.

Lemma engineClangd_not_projectFormat paths :
  engineClangd paths ≠ projectFormat paths.
Proof.
  unfold engineClangd, projectFormat, Path.join. intros Heq.
  apply (f_equal last_char) in Heq.
  rewrite !last_char_join in Heq. discriminate.
Qed.

Lemma projectFormat_not_projectClangd paths :
  projectFormat paths ≠ projectClangd paths.
Proof.
  unfold projectFormat, projectClangd, Path.join. intros Heq.
  apply (f_equal last_char) in Heq.
  rewrite !last_char_join in Heq. discriminate.
Qed.

(** C9, amended: once both templates are read, config install always
    completes, and writes the [.clangd] template and then the
    [.clang-format] template verbatim into the project root, whatever
    was there.  When one of these two writes fails it shows the
    templates error and stops there: nothing more is written, and the
    engine root is not touched.  When both go through, the [.clangd]
    template, and only that one, is written into the engine root; when
    that write fails a warning is shown and the step still completes;
    nothing else in the file system changes. *)
Theorem generateConfigs_spec (context : ExtensionContext)
    (paths : WorkspacePaths) (w : World)
    (clangdContent formatContent : string) :
  Fs.readFileSync (fs w) (clangdSrc context) = Ok clangdContent →
  Fs.readFileSync (fs w) (formatSrc context) = Ok formatContent →
  let w' := (generateConfigs context paths w).2 in
  (generateConfigs context paths w).1 = Ok tt ∧
  match Fs.writeFileSync (fs w) (projectClangd paths) clangdContent with
  | Throw _ => fs w' = fs w ∧ events w' = events w ++ templatesError
  | Ok d1 =>
      match Fs.writeFileSync d1 (projectFormat paths) formatContent with
      | Throw _ =>
          fs w' = Fs.put (fs w) (projectClangd paths) (File clangdContent) ∧
          events w' = events w ++ templatesError
      | Ok d2 =>
          nodes (fs w') !! projectClangd paths = Some (File clangdContent) ∧
          nodes (fs w') !! projectFormat paths = Some (File formatContent) ∧
          (∀ q, q ≠ projectClangd paths → q ≠ projectFormat paths →
                q ≠ engineClangd paths →
                nodes (fs w') !! q = nodes (fs w) !! q) ∧
          match Fs.writeFileSync d2 (engineClangd paths) clangdContent with
          | Ok d3 =>
              fs w' = d3 ∧ events w' = events w ∧
              nodes d3 !! engineClangd paths = Some (File clangdContent)
          | Throw _ =>
              fs w' = d2 ∧
              events w' = events w ++ [ShowWarningMessage msgEngineWrite]
          end
      end
  end.
Proof.
  intros Hr1 Hr2.
  unfold generateConfigs, createFile, Eff.try_catch, Eff.bind, Eff.reads,
    Eff.writes, Eff.emit.
  fold (clangdSrc context) (formatSrc context) (projectClangd paths)
    (projectFormat paths) (engineClangd paths).
  rewrite Hr1, Hr2.
  destruct (Fs.writeFileSync (fs w) (projectClangd paths) clangdContent)
    as [d1|e1] eqn:Hw1; cbn [fs events fst snd]; [|by rewrite <- app_assoc].
  destruct (Fs.writeFileSync d1 (projectFormat paths) formatContent)
    as [d2|e2] eqn:Hw2; cbn [fs events fst snd].
  2:{ pose proof (writeFileSync_ok _ _ _ _ Hw1) as ->.
      by rewrite <- app_assoc. }
  pose proof (writeFileSync_ok _ _ _ _ Hw1) as ->.
  pose proof (writeFileSync_ok _ _ _ _ Hw2) as ->.
  destruct (Fs.writeFileSync _ (engineClangd paths) clangdContent)
    as [d3|e] eqn:Hw3; cbn [fs events fst snd].
  - pose proof (writeFileSync_ok _ _ _ _ Hw3) as ->.
    split; [done|]. unfold Fs.put; cbn [nodes].
    split; [|split; [|split]].
    + apply insert_lookup_same.
      rewrite lookup_insert_ne by apply projectFormat_not_projectClangd.
      apply lookup_insert_eq.
    + rewrite lookup_insert_ne by apply engineClangd_not_projectFormat.
      apply lookup_insert_eq.
    + intros q Hq1 Hq2 Hq3. by rewrite !lookup_insert_ne.
    + split; [done|]. split; [by destruct w|]. apply lookup_insert_eq.
  - split; [done|]. unfold Fs.put; cbn [nodes].
    split; [|split; [|split]].
    + rewrite lookup_insert_ne by apply projectFormat_not_projectClangd.
      apply lookup_insert_eq.
    + apply lookup_insert_eq.
    + intros q Hq1 Hq2 Hq3. by rewrite !lookup_insert_ne.
    + done.
Qed.

End ConfigInstall.

(** ** Task injection: the merge of the task list *)

Section Merge.
Context `{Runtime}.

Lemma sameLabel_spec nt et :
  sameLabel nt et =
  match et with
  | JNull => Throw TypeError
  | _ => Ok (bool_decide (label_of et = Some (label nt)))
  end.
Proof.
  unfold sameLabel, Js.getProp, Js.ref, label_of; destruct et as [| | | | |props];
    simpl; try done.
  destruct (Js.assoc_get "label" props) as [[| | |s| |]|]; simpl; try done.
  f_equal. destruct (String.eqb_spec s (label nt)) as [->|Hne].
  - by rewrite bool_decide_eq_true_2.
  - rewrite bool_decide_eq_false_2; [done|]. congruence.
Qed.

Lemma label_of_task_json nt : label_of (task_json nt) = Some (label nt).
Proof. done. Qed.


(** *** [findIndex] *)

Lemma findIndex_from_none p xs i :
  Forall (λ x, p x = Ok false) xs → Js.findIndex_from p xs i = Ok (-1).
Proof.
  intros Hall. revert i. induction Hall as [|x xs Hx _ IH]; intros i; simpl;
    [done|]. by rewrite Hx.
Qed.


Lemma findIndex_from_inv p xs i r :
  Js.findIndex_from p xs i = Ok r →
  (r = -1 ∧ Forall (λ x, p x = Ok false) xs) ∨
  (∃ before x after,
     xs = before ++ x :: after ∧ Forall (λ y, p y = Ok false) before ∧
     p x = Ok true ∧ r = i + Z.of_nat (length before)).
Proof.
  revert i. induction xs as [|x xs IH]; intros i; simpl.
  - intros [= <-]. left. by split.
  - destruct (p x) as [[|]|e] eqn:Hx; [| |done].
    + intros [= <-]. right. exists [], x, xs. simpl.
      repeat split; [constructor|done|lia].
    + intros Hr. destruct (IH _ Hr) as [[-> Hall]|(b & y & a & -> & Hb & Hy & ->)].
      * left. split; [done|]. by constructor.
      * right. exists (x :: b), y, a. simpl.
        repeat split; [by constructor|done|lia].
Qed.

(** *** one task definition *)

Lemma insert_middle {A} (before : list A) x y after :
  <[length before := y]> (before ++ x :: after) = before ++ y :: after.
Proof. induction before as [|z before IH]; simpl; [done|]. by rewrite IH. Qed.

Lemma placeTask_found before x after nt :
  placeTask (before ++ x :: after) (Z.of_nat (length before)) nt =
  before ++ task_json nt :: after.
Proof.
  unfold placeTask. destruct (Z.eqb_spec (Z.of_nat (length before)) (-1)); [lia|].
  rewrite Nat2Z.id. apply insert_middle.
Qed.

(** either no entry carries the label and the definition is appended,
    or it takes the place of the first entry that does *)
Lemma mergeTask_inv tasks nt tasks' :
  mergeTask tasks nt = Ok tasks' →
  (Forall (λ et, sameLabel nt et = Ok false) tasks ∧
   tasks' = tasks ++ [task_json nt]) ∨
  (∃ before x after,
     tasks = before ++ x :: after ∧
     Forall (λ et, sameLabel nt et = Ok false) before ∧
     sameLabel nt x = Ok true ∧
     tasks' = before ++ task_json nt :: after).
Proof.
  unfold mergeTask, Js.findIndex.
  destruct (Js.findIndex_from _ tasks 0) as [idx|e] eqn:Hidx; [|done].
  intros [= <-].
  apply findIndex_from_inv in Hidx
    as [[-> Hall]|(b & x & a & -> & Hb & Hx & ->)].
  - left. by split.
  - right. exists b, x, a. repeat split; [done..|].
    rewrite Z.add_0_l. apply placeTask_found.
Qed.

Lemma mergeTask_append tasks nt :
  Forall (λ et, sameLabel nt et = Ok false) tasks →
  mergeTask tasks nt = Ok (tasks ++ [task_json nt]).
Proof.
  intros Hall. unfold mergeTask, Js.findIndex.
  by rewrite findIndex_from_none.
Qed.


(** *** a definition that is in place *)










(** *** labels are kept *)

Lemma count_label_app l xs ys :
  count_label l (xs ++ ys) = (count_label l xs + count_label l ys)%nat.
Proof. unfold count_label. by rewrite List.filter_app, length_app. Qed.

Lemma count_label_cons l x xs :
  count_label l (x :: xs) =
  ((if bool_decide (label_of x = Some l) then 1 else 0) + count_label l xs)%nat.
Proof. unfold count_label. simpl. by destruct (bool_decide _). Qed.

Lemma count_label_task_json l nt xs :
  count_label l (task_json nt :: xs) =
  ((if bool_decide (label nt = l) then 1 else 0) + count_label l xs)%nat.
Proof.
  rewrite count_label_cons, label_of_task_json.
  by rewrite (bool_decide_ext (Some (label nt) = Some l) (label nt = l))
    by (split; congruence).
Qed.

Lemma sameLabel_true nt et :
  sameLabel nt et = Ok true ↔ label_of et = Some (label nt).
Proof.
  rewrite sameLabel_spec.
  destruct et; simpl; try (split; [intros [= Hb]|intros Hb]; try done;
    try (by apply bool_decide_eq_true in Hb);
    try (f_equal; by apply bool_decide_eq_true)).
Qed.

Lemma sameLabel_false nt et :
  sameLabel nt et = Ok false → label_of et ≠ Some (label nt).
Proof.
  rewrite sameLabel_spec. destruct et; simpl; try done.
  intros [= Hb]. by apply bool_decide_eq_false in Hb.
Qed.

Lemma count_label_absent nt tasks :
  Forall (λ et, sameLabel nt et = Ok false) tasks →
  count_label (label nt) tasks = 0%nat.
Proof.
  induction 1 as [|et tasks Het _ IH]; [done|].
  rewrite count_label_cons, IH.
  by rewrite bool_decide_eq_false_2 by by apply sameLabel_false.
Qed.

Lemma mergeTask_count_other tasks nt tasks' l :
  mergeTask tasks nt = Ok tasks' → l ≠ label nt →
  count_label l tasks' = count_label l tasks.
Proof.
  intros [[Hall ->]|(b & x & a & -> & Hb & Hx & ->)]%mergeTask_inv Hne.
  - rewrite count_label_app, count_label_task_json.
    rewrite bool_decide_eq_false_2 by congruence.
    change (count_label l []) with 0%nat. lia.
  - rewrite !count_label_app, count_label_task_json, count_label_cons.
    apply sameLabel_true in Hx. rewrite Hx.
    rewrite bool_decide_eq_false_2 by congruence.
    by rewrite bool_decide_eq_false_2 by congruence.
Qed.


(** an entry under another label keeps its place *)
Lemma mergeTask_keeps tasks nt tasks' i et :
  mergeTask tasks nt = Ok tasks' → tasks !! i = Some et →
  label_of et ≠ Some (label nt) → tasks' !! i = Some et.
Proof.
  intros [[Hall ->]|(b & x & a & -> & Hb & Hx & ->)]%mergeTask_inv Hi Hl.
  - by apply lookup_app_l_Some.
  - rewrite <- (insert_middle b x). rewrite list_lookup_insert_ne; [done|].
    intros <-. rewrite list_lookup_middle in Hi by done.
    injection Hi as ->. by apply sameLabel_true in Hx.
Qed.




End Merge.

(** ** Task injection: the manifest object *)

Section Manifest.
Context `{Runtime}.

Lemma assoc_get_set k v (props : list (string * value)) :
  Js.assoc_get k (Js.assoc_set k v props) = Some v.
Proof.
  induction props as [|[k' v'] props IH]; simpl.
  - by rewrite String.eqb_refl.
  - destruct (String.eqb k' k) eqn:Hk; simpl; by rewrite Hk.
Qed.


Lemma assoc_set_set k v1 v2 (props : list (string * value)) :
  Js.assoc_set k v2 (Js.assoc_set k v1 props) = Js.assoc_set k v2 props.
Proof.
  induction props as [|[k' v'] props IH]; simpl.
  - by rewrite String.eqb_refl.
  - destruct (String.eqb k' k) eqn:Hk; simpl; rewrite Hk; [done|].
    by rewrite IH.
Qed.

Lemma assoc_set_id k v (props : list (string * value)) :
  Js.assoc_get k props = Some v → Js.assoc_set k v props = props.
Proof.
  induction props as [|[k' v'] props IH]; simpl; [done|].
  destruct (String.eqb k' k); [by intros [= ->]|].
  intros Hg. by rewrite IH.
Qed.



Lemma setProp_tasks r x v :
  Js.getProp r "tasks" = Ok (Some x) →
  Js.setProp r "tasks" v = Ok (with_tasks r v) ∧
  Js.getProp (with_tasks r v) "tasks" = Ok (Some v).
Proof.
  unfold Js.getProp, Js.setProp, with_tasks.
  destruct (Js.content r) eqn:Hc; try done; intros _; simpl;
    by rewrite assoc_get_set.
Qed.

Lemma with_tasks_twice r x v1 v2 :
  Js.getProp r "tasks" = Ok (Some x) →
  with_tasks (with_tasks r v1) v2 = with_tasks r v2.
Proof.
  unfold Js.getProp, with_tasks.
  destruct (Js.content r) eqn:Hc; try done; intros _; simpl;
    rewrite ?Hc; by rewrite assoc_set_set.
Qed.

Lemma with_tasks_id r v :
  Js.getProp r "tasks" = Ok (Some v) → with_tasks r v = r.
Proof.
  unfold Js.getProp, with_tasks. destruct r as [c e]; simpl.
  destruct c; try done; intros [= Hg]; by rewrite assoc_set_id.
Qed.

Lemma forEach_run nts tasksJson w :
  Eff.foldM (λ t nt, Eff.of_result (updateOrAdd t nt)) nts tasksJson w =
  (mergeAll tasksJson nts, w).
Proof.
  revert tasksJson. induction nts as [|nt nts IH]; intros r; simpl; [done|].
  unfold Eff.bind, Eff.of_result. by destruct (updateOrAdd r nt).
Qed.

Lemma updateOrAdd_array r tasks nt :
  Js.getProp r "tasks" = Ok (Some (JArr tasks)) →
  updateOrAdd r nt =
  match mergeTask tasks nt with
  | Ok tasks' => Ok (with_tasks r (JArr tasks'))
  | Throw e => Throw e
  end.
Proof.
  intros Hg. unfold updateOrAdd, mergeTask. rewrite Hg.
  destruct (Js.findIndex (sameLabel nt) tasks); [|done].
  by destruct (setProp_tasks r _ (JArr (placeTask tasks a nt)) Hg) as [-> _].
Qed.

Lemma mergeAll_array nts r tasks :
  Js.getProp r "tasks" = Ok (Some (JArr tasks)) →
  mergeAll r nts =
  match mergeTasks tasks nts with
  | Ok tasks' => Ok (with_tasks r (JArr tasks'))
  | Throw e => Throw e
  end.
Proof.
  revert r tasks. induction nts as [|nt nts IH]; intros r tasks Hg; simpl.
  - by rewrite with_tasks_id.
  - rewrite (updateOrAdd_array _ _ _ Hg).
    destruct (mergeTask tasks nt) as [tasks1|e]; [|done].
    destruct (setProp_tasks r _ (JArr tasks1) Hg) as [_ Hg1].
    rewrite (IH _ _ Hg1).
    destruct (mergeTasks tasks1 nts); [|done].
    by rewrite (with_tasks_twice _ _ _ _ Hg).
Qed.

Lemma mergeAll_not_array r x nt nts :
  Js.getProp r "tasks" = Ok (Some x) → (∀ tasks, x ≠ JArr tasks) →
  mergeAll r (nt :: nts) = Throw TypeError.
Proof.
  intros Hg Hx. simpl. unfold updateOrAdd. rewrite Hg.
  destruct x; try done. by destruct (Hx items).
Qed.

End Manifest.

(** ** Task injection: the run *)

Section Injection.
Context `{Runtime}.

Lemma readTasksJson_run paths w :
  readTasksJson paths w = (loadTasksJson paths (fs w), w).
Proof.
  unfold readTasksJson, loadTasksJson, Eff.bind, Eff.reads, Eff.throw,
    Eff.of_result, Eff.ret.
  destruct (Fs.readFileSync (fs w) (tasksJsonPath paths)); [|done].
  destruct (JSON_parse a) as [parsed|]; [|done].
  destruct (Js.getProp (Js.ref parsed) "tasks") as [tasks|]; [|done].
  by destruct (negb (Js.truthy tasks)).
Qed.

(** the run of [injectTasks] in closed form *)
Lemma injectTasks_run paths w :
  injectTasks paths w =
  match ensureDir paths (fs w) with
  | Throw e => (Throw e, w)
  | Ok d1 =>
      let start := startTasksJson paths d1 in
      let w1 := {| fs := d1; events := events w ++ start.2 |} in
      match mergeAll start.1 (newTasks paths) with
      | Throw e => (Throw e, w1)
      | Ok final =>
          match Fs.writeFileSync d1 (tasksJsonPath paths)
                  (JSON_stringify (Js.content final)) with
          | Ok d2 => (Ok tt, {| fs := d2; events := events w ++ start.2 |})
          | Throw e => (Throw e, w1)
          end
      end
  end.
Proof.
  unfold injectTasks, ensureDir.
  unfold Eff.bind at 1. unfold Eff.reads at 1.
  unfold Eff.bind at 1.
  destruct w as [d evs]. cbn [fs events].
  assert (Hdir :
    (if negb (Fs.existsSync d (vscodeDir paths))
     then Eff.writes (λ d0, Fs.mkdirSync d0 (vscodeDir paths))
     else Eff.ret ()) {| fs := d; events := evs |} =
    match (if Fs.existsSync d (vscodeDir paths) then Ok d
           else Fs.mkdirSync d (vscodeDir paths)) with
    | Ok d1 => (Ok tt, {| fs := d1; events := evs |})
    | Throw e => (Throw e, {| fs := d; events := evs |})
    end).
  { destruct (Fs.existsSync d (vscodeDir paths)); simpl; [done|].
    unfold Eff.writes. cbn [fs events].
    by destruct (Fs.mkdirSync d (vscodeDir paths)). }
  rewrite Hdir. clear Hdir.
  destruct (if Fs.existsSync d (vscodeDir paths) then Ok d
            else Fs.mkdirSync d (vscodeDir paths)) as [d1|e]; [|done].
  unfold Eff.bind at 1. unfold Eff.reads at 1. cbn [fs events].
  unfold Eff.bind at 1. unfold startTasksJson.
  destruct (Fs.existsSync d1 (tasksJsonPath paths)).
  - unfold Eff.try_catch. rewrite readTasksJson_run. cbn [fs events].
    destruct (loadTasksJson paths d1) as [start|e]; cbn [fst snd].
    + unfold Eff.bind. rewrite forEach_run, app_nil_r.
      destruct (mergeAll start (newTasks paths)) as [final|e]; [|done].
      unfold Eff.writes. cbn [fs events].
      by destruct (Fs.writeFileSync d1 _ _).
    + unfold Eff.bind at 1. unfold Eff.emit at 1. cbn [fs events].
      unfold Eff.ret at 1. fold msgParseFailed.
      unfold Eff.bind. rewrite forEach_run.
      destruct (mergeAll defaultTasksJson (newTasks paths)) as [final|e'];
        [|done].
      unfold Eff.writes. cbn [fs events].
      by destruct (Fs.writeFileSync d1 _ _).
  - unfold Eff.ret at 1. cbn [fst snd].
    unfold Eff.bind. rewrite forEach_run, app_nil_r.
    destruct (mergeAll defaultTasksJson (newTasks paths)) as [final|e];
      [|done].
    unfold Eff.writes. cbn [fs events].
    by destruct (Fs.writeFileSync d1 _ _).
Qed.

Lemma truthy_append_r s t : Str.truthy t = true → Str.truthy (s +:+ t) = true.
Proof. by destruct s, t. Qed.

Lemma tasksJsonPath_truthy paths : Str.truthy (tasksJsonPath paths) = true.
Proof.
  unfold tasksJsonPath, Path.join. apply truthy_append_r.
  by apply truthy_append_r.
Qed.

Lemma existsSync_file d p n :
  Str.truthy p = true → nodes d !! p = Some n → Fs.existsSync d p = true.
Proof. unfold Fs.existsSync, Fs.node_at. by intros -> ->. Qed.

Lemma readFileSync_file d p content :
  Str.truthy p = true → nodes d !! p = Some (File content) → p ∉ denied d →
  Fs.readFileSync d p = Ok content.
Proof.
  unfold Fs.readFileSync, Fs.node_at. intros -> -> Hok.
  by rewrite decide_False.
Qed.

Lemma writeFileSync_file d p old content :
  Str.truthy p = true → nodes d !! p = Some (File old) → p ∉ denied d →
  Fs.writeFileSync d p content = Ok (Fs.put d p (File content)).
Proof.
  unfold Fs.writeFileSync. intros -> -> Hok. simpl.
  by rewrite decide_False.
Qed.

Lemma writeFileSync_inv d p content d' :
  Fs.writeFileSync d p content = Ok d' →
  Str.truthy p = true ∧ (p ∉ denied d) ∧ d' = Fs.put d p (File content) ∧
  (∀ entries, nodes d !! p ≠ Some (Dir entries)).
Proof.
  unfold Fs.writeFileSync. destruct (Str.truthy p); [|done]. simpl.
  destruct (decide (p ∈ denied d)); [done|].
  destruct (nodes d !! p) as [[?|?]|]; try done; by intros [= <-].
Qed.


(** the merge of the four definitions into an empty list *)
Lemma mergeTasks_fresh paths :
  mergeTasks [] (newTasks paths) = Ok (map task_json (newTasks paths)).
Proof. reflexivity. Qed.

Lemma mergeAll_default paths :
  mergeAll defaultTasksJson (newTasks paths) = Ok (Js.ref (freshManifest paths)).
Proof.
  rewrite (mergeAll_array _ _ []) by done. by rewrite mergeTasks_fresh.
Qed.

(** the run on a manifest that does not parse *)
Lemma injectTasks_unparsable (paths : WorkspacePaths) (w : World)
    (content : string) :
  Fs.existsSync (fs w) (vscodeDir paths) = true →
  nodes (fs w) !! tasksJsonPath paths = Some (File content) →
  tasksJsonPath paths ∉ denied (fs w) →
  JSON_parse content = None →
  let w' := (injectTasks paths w).2 in
  (injectTasks paths w).1 = Ok tt ∧
  events w' = events w ++ [ConsoleWarn msgParseFailed] ∧
  nodes (fs w') !! tasksJsonPath paths =
    Some (File (JSON_stringify (freshManifest paths))).
Proof.
  intros Hdir Hfile Hok Hparse. rewrite injectTasks_run.
  unfold ensureDir. rewrite Hdir. cbv zeta.
  pose proof (tasksJsonPath_truthy paths) as Ht.
  unfold startTasksJson.
  rewrite (existsSync_file _ _ _ Ht Hfile).
  unfold loadTasksJson.
  rewrite (readFileSync_file _ _ _ Ht Hfile Hok), Hparse. cbn [fst snd].
  rewrite mergeAll_default. cbn [Js.content Js.ref].
  rewrite (writeFileSync_file _ _ _ _ Ht Hfile Hok). cbn [fst snd fs events].
  repeat split. unfold Fs.put; cbn [nodes]. apply lookup_insert_eq.
Qed.

(** *** a manifest that parses to an object *)



Lemma newTasks_cons paths : ∃ nt nts, newTasks paths = nt :: nts.
Proof. by eexists _, _. Qed.




(** *** a manifest with tasks of its own *)

Lemma newTasks_labels paths : map label (newTasks paths) = requiredLabels.
Proof. reflexivity. Qed.

Lemma requiredLabels_NoDup : NoDup requiredLabels.
Proof. apply (bool_decide_unpack _). by vm_compute. Qed.


End Injection.

(** ** Canonical values under the merge *)

Section Canonical.
Context `{Runtime}.








Lemma canonical_default :
  Canon.canonical (Js.content defaultTasksJson) = true.
Proof. reflexivity. Qed.



End Canonical.

(** ** Task injection twice *)

Section Idempotence.
Context `{Runtime}.

(** [JSON.parse] returns canonical values, and gives back every
    canonical value from the text [JSON.stringify] writes for it (the
    numbers being the finite doubles, [JSON.stringify] prints each of
    them). *)
Hypothesis JSON_parse_canonical :
  ∀ (text : string) (v : value),
    JSON_parse text = Some v → Canon.canonical v = true.
Hypothesis JSON_parse_stringify :
  ∀ v : value, Canon.canonical v = true → JSON_parse (JSON_stringify v) = Some v.









End Idempotence.

(** ** The save watcher *)

Section SaveWatcher.
Context `{Runtime}.
Variable vscode : VSCode.

Lemma triggerTask_run taskName w :
  triggerTask vscode taskName w =
  (Ok tt, {| fs := fs w; events := events w ++ [triggerEvent vscode taskName] |}).
Proof.
  unfold triggerTask, triggerEvent.
  by destruct (List.find _ (fetchTasks vscode)).
Qed.

Lemma saveWatcher_run doc w :
  ∃ scan, only_warnings scan ∧
    saveWatcher vscode doc w =
    (Ok tt,
     {| fs := fs w;
        events := events w ++ scan ++
          if config_get vscode "autoFixOnSave" &&
             match resolved vscode (fs w) with
             | Some paths => watcher_test vscode paths doc
             | None => false
             end
          then [triggerEvent vscode TASK_COMPOUND] else [] |}).
Proof.
  unfold saveWatcher, watcher_test.
  destruct (config_get vscode "autoFixOnSave"); simpl.
  - unfold Eff.bind.
    destruct (getWorkspacePaths_run vscode w) as (scan & Hscan & ->).
    exists scan. split; [done|].
    destruct (resolved vscode (fs w)) as [paths|];
      [|unfold Eff.ret; by rewrite app_nil_r].
    destruct (Str.endsWith _ _), (Str.includes _ _); simpl;
      try (unfold Eff.ret; by rewrite app_nil_r).
    destruct (hasPhantomErrors vscode (uri doc));
      [|unfold Eff.ret; by rewrite app_nil_r].
    rewrite triggerTask_run. cbn [fs events]. by rewrite <- app_assoc.
  - exists []. split; [constructor|]. unfold Eff.ret.
    destruct w. by rewrite !app_nil_r.
Qed.

Lemma prefix_append_l p q s :
  String.prefix (p +:+ q) s = true → String.prefix p s = true.
Proof.
  revert s. induction p as [|a p IH]; intros s; simpl; [by destruct s|].
  destruct s as [|b s]; [done|].
  change (String a p +:+ q) with (String a (p +:+ q)). simpl.
  destruct (Ascii.ascii_dec a b); [apply IH|done].
Qed.

Lemma includes_prefix s p : String.prefix p s = true → Str.includes s p = true.
Proof.
  intros Hp. destruct s; unfold Str.includes; fold Str.includes; by rewrite Hp.
Qed.

(** a header under the source subtree passes the watcher's path test;
    the converse fails, see the example at the end *)
Lemma under_source_subtree_includes paths fileName :
  under_source_subtree paths fileName = true →
  Str.includes fileName (Path.join [projectRoot paths; "Source"]) = true.
Proof.
  unfold under_source_subtree, Str.startsWith. intros Hp.
  apply includes_prefix. by eapply prefix_append_l.
Qed.

End SaveWatcher.

(** ** The rewritten manifest, as it reads back *)

Section Finite.
Context `{Runtime}.









Lemma freshManifest_literal paths : freshManifest paths = requiredManifest paths.
Proof. reflexivity. Qed.

End Finite.

Section Rewritten.
Context `{Runtime}.

(** [JSON.parse] returns canonical values, and gives back every
    canonical value without an [Infinity] from the text
    [JSON.stringify] writes for it. *)
Hypothesis JSON_parse_canonical :
  ∀ (text : string) (v : value),
    JSON_parse text = Some v → Canon.canonical v = true.
Hypothesis JSON_stringify_parse :
  ∀ v : value,
    Canon.canonical v = true → finite v = true →
    JSON_parse (JSON_stringify v) = Some v.

(** C3: when the existing manifest does not parse, injection completes;
    all it emits is one console warning (no message is shown to the
    user); and the manifest is rewritten as the fresh one: the text
    [JSON.stringify] writes for [requiredManifest], which reads back as
    that value, version [2.0.0] and a task list of exactly the four
    definitions of the source, under the four required labels in their
    order.  The manifest's directory exists and the file can be read
    and written. *)
Theorem injectTasks_malformed (paths : WorkspacePaths) (w : World)
    (content : string) :
  Fs.existsSync (fs w) (vscodeDir paths) = true →
  nodes (fs w) !! tasksJsonPath paths = Some (File content) →
  tasksJsonPath paths ∉ denied (fs w) →
  JSON_parse content = None →
  let w' := (injectTasks paths w).2 in
  (injectTasks paths w).1 = Ok tt ∧
  events w' = events w ++ [ConsoleWarn msgParseFailed] ∧
  nodes (fs w') !! tasksJsonPath paths =
    Some (File (JSON_stringify (requiredManifest paths))) ∧
  JSON_parse (JSON_stringify (requiredManifest paths)) =
    Some (requiredManifest paths) ∧
  ∃ generate uht restart compound,
    requiredManifest paths =
      JObj [ ("version", JStr "2.0.0");
             ("tasks", JArr [generate; uht; restart; compound]) ] ∧
    label_of generate = Some "Generate Clang CompileCommands" ∧
    label_of uht = Some "Refresh UHT Generated Headers" ∧
    label_of restart = Some "Restart Clangd" ∧
    label_of compound = Some "Fix Header False Errors".
Proof using JSON_stringify_parse.
  intros Hdir Hfile Hok Hparse.
  destruct (injectTasks_unparsable paths w content Hdir Hfile Hok Hparse)
    as (Hrun & Hev & Hwritten).
  rewrite freshManifest_literal in Hwritten.
  split; [done|]. split; [done|]. split; [done|]. split.
  - by apply JSON_stringify_parse.
  - by repeat eexists.
Qed.



End Rewritten.

(** ** The reference runtime meets the assumptions *)

Lemma of_to_tree : ∀ v, Reference.of_tree (Reference.to_tree v) = v.
Proof.
  fix IH 1. intros [|b|n|s|items|props]; simpl; try done.
  - f_equal. induction items as [|x items IHitems]; simpl; [done|].
    by rewrite IH, IHitems.
  - f_equal. induction props as [|[k x] props IHprops]; simpl; [done|].
    by rewrite IH, IHprops.
Qed.

Lemma bits_to_pos_to_bits p :
  Reference.bits_to_pos (Reference.pos_to_bits p) = Some p.
Proof. induction p as [p IH|p IH|]; simpl; by rewrite ?IH. Qed.

Lemma reference_parse_stringify (v : json Z) :
  Canon.canonical v = true →
  @JSON_parse Reference.runtime (@JSON_stringify Reference.runtime v) = Some v.
Proof.
  intros Hc. simpl. unfold Reference.parse, Reference.stringify.
  rewrite bits_to_pos_to_bits. simpl. rewrite decode_encode, of_to_tree.
  by rewrite Hc.
Qed.


Lemma reference_numeral (n : Z) :
  starts_lower (@Number_toString Reference.runtime n) = false.
Proof.
  simpl. destruct (Z.to_int n) as [d|d]; simpl.
  - by destruct d.
  - done.
Qed.

Lemma reference_stringify_parse (v : json Z) :
  Canon.canonical v = true → @finite Reference.runtime v = true →
  @JSON_parse Reference.runtime (@JSON_stringify Reference.runtime v) = Some v.
Proof. intros Hc _. by apply reference_parse_stringify. Qed.

(** ** The runtime with [Infinity] *)



(** * Further properties *)

(** ** Path resolution: what it logs, what it returns *)

Section PathResolutionMore.
Context `{Runtime}.
Variable vscode : VSCode.

Lemma cannot_read_calls d folder :
  cannot_read d folder =
  match Fs.statSync_isDirectory d folder with
  | Throw _ => true
  | Ok false => false
  | Ok true =>
      match Fs.readdirSync d folder with Throw _ => true | Ok _ => false end
  end.
Proof.
  unfold cannot_read, Fs.statSync_isDirectory, Fs.readdirSync.
  destruct (Fs.node_at d folder) as [[c|files]|]; try done.
  destruct (decide (folder ∈ denied d)).
  - by rewrite bool_decide_eq_true_2.
  - by rewrite bool_decide_eq_false_2.
Qed.

Lemma scanFolder_warns acc fsPath w :
  scanFolder acc fsPath w =
  (Ok (scan_step (fs w) acc fsPath),
   scanned w (if cannot_read (fs w) fsPath then [folderWarning fsPath] else [])).
Proof.
  rewrite cannot_read_calls.
  unfold scanFolder, scan_step, scanned, folderWarning,
    Eff.try_catch, Eff.bind, Eff.reads, Eff.ret, Eff.emit, markerPath.
  destruct w as [d evs]; cbn [fs events].
  destruct (Fs.statSync_isDirectory d fsPath) as [[|]|e]; cbn [negb fs events];
    rewrite ?app_nil_r; try done.
  destruct (Fs.readdirSync d fsPath) as [files|e]; cbn [fs events];
    by rewrite ?app_nil_r.
Qed.

Lemma scanFolders_warns folders acc w :
  Eff.foldM scanFolder folders acc w =
  (Ok (fold_left (scan_step (fs w)) folders acc),
   scanned w (map folderWarning (List.filter (cannot_read (fs w)) folders))).
Proof.
  revert acc w. induction folders as [|f folders IH]; intros acc w; simpl.
  - unfold Eff.ret, scanned. rewrite app_nil_r. by destruct w.
  - unfold Eff.bind. rewrite scanFolder_warns, IH. unfold scanned.
    cbn [fs events]. f_equal. f_equal.
    destruct (cannot_read (fs w) f); simpl; by rewrite <- ?app_assoc, ?app_nil_r.
Qed.

Lemma getWorkspacePaths_closed (w : World) :
  getWorkspacePaths vscode w =
  (Ok (resolved vscode (fs w)), scanned w (scanLog vscode (fs w))).
Proof.
  unfold scanLog.
  unfold getWorkspacePaths, resolved, folders_of.
  destruct (workspaceFolders vscode) as [folders|].
  - unfold Eff.bind. rewrite scanFolders_warns. fold noPaths.
    by destruct (_ && _).
  - unfold Eff.ret, scanned. simpl. rewrite app_nil_r. by destruct w.
Qed.

(** X1: path resolution never throws and leaves the file system as it
    is; all it emits is one console warning, naming the folder, for each
    workspace folder that does not exist or cannot be listed, in
    workspace order; a folder that is a plain file is passed over
    without a word. *)
Theorem getWorkspacePaths_effects (w : World) :
  (∃ result, (getWorkspacePaths vscode w).1 = Ok result) ∧
  fs (getWorkspacePaths vscode w).2 = fs w ∧
  events (getWorkspacePaths vscode w).2 =
    events w ++
    map folderWarning (List.filter (cannot_read (fs w)) (folders_of vscode)).
Proof. rewrite getWorkspacePaths_closed. split; [by eexists|done]. Qed.

Lemma has_marker_existsSync d folder files :
  readable_folder d folder files →
  Fs.existsSync d (markerPath folder) = true ↔ has_marker d folder.
Proof.
  intros Hr. rewrite existsSync_true. unfold has_marker. split.
  - intros [_ ?]. split; [by exists files|done].
  - intros [_ ?]. split; [|done]. apply markerPath_nonempty. by destruct Hr.
Qed.

Lemma scan_step_marker d acc folder :
  has_marker d folder → engineRoot (scan_step d acc folder) = folder.
Proof.
  intros Hm. pose proof Hm as [[files Hr] _].
  rewrite (scan_step_readable _ _ _ _ Hr). cbv zeta.
  apply (has_marker_existsSync _ _ _ Hr) in Hm. by rewrite Hm.
Qed.

Lemma scan_step_no_marker d acc folder :
  ¬ has_marker d folder → engineRoot (scan_step d acc folder) = engineRoot acc.
Proof.
  intros Hm. destruct (readable_folder_dec d folder) as [[files Hr]|Hno].
  - rewrite (scan_step_readable _ _ _ _ Hr). cbv zeta.
    destruct (Fs.existsSync d (markerPath folder)) eqn:Hex.
    + destruct Hm. by apply (has_marker_existsSync _ _ _ Hr).
    + by destruct (List.find _ files).
  - by rewrite (scan_step_unreadable _ _ _ Hno).
Qed.

Lemma scan_all_no_marker d folders acc :
  Forall (λ f, ¬ has_marker d f) folders →
  engineRoot (fold_left (scan_step d) folders acc) = engineRoot acc.
Proof.
  intros Hall. revert acc.
  induction Hall as [|f folders Hf _ IH]; intros acc; simpl; [done|].
  rewrite IH. by apply scan_step_no_marker.
Qed.

(** X2: the engine root is the last workspace folder (in workspace
    order) under which the marker script is found, whichever folder the
    project sits in. *)
Theorem getWorkspacePaths_engine_choice
    (w : World) (before after : list string) (folder : string) :
  workspaceFolders vscode = Some (before ++ folder :: after) →
  has_marker (fs w) folder →
  Forall (λ f, ¬ has_marker (fs w) f) after →
  Exists (has_descriptor (fs w)) (before ++ folder :: after) →
  ∃ paths, (getWorkspacePaths vscode w).1 = Ok (Some paths) ∧
           engineRoot paths = folder.
Proof.
  intros Hws Hm Hafter Hdesc. rewrite getWorkspacePaths_closed. cbn [fst].
  assert (Hsome : is_Some (resolved vscode (fs w))).
  { apply resolved_iff. eexists. split; [done|]. split; [done|].
    apply Exists_app. right. apply Exists_cons. by left. }
  destruct Hsome as [paths Hres]. exists paths. split; [by rewrite Hres|].
  unfold resolved in Hres. rewrite Hws in Hres.
  destruct (_ && _); [|done]. injection Hres as <-.
  rewrite fold_left_app. simpl. rewrite (scan_all_no_marker _ _ _ Hafter).
  by apply scan_step_marker.
Qed.

Lemma scan_step_found_ok d all acc folder :
  folder ∈ all → found_ok d all acc → found_ok d all (scan_step d acc folder).
Proof.
  intros Hin [Hp He].
  destruct (readable_folder_dec d folder) as [[files Hr]|Hno];
    [|by rewrite (scan_step_unreadable _ _ _ Hno)].
  rewrite (scan_step_readable _ _ _ _ Hr). cbv zeta.
  assert (Hp' : ∀ e,
    let acc1 := match List.find (λ f, Str.endsWith f ".uproject") files with
                | Some uproject =>
                    {| projectRoot := folder; engineRoot := e;
                       projectName := Path.parse_name uproject |}
                | None => acc
                end in
    projectRoot acc1 = EmptyString ∨
    projectRoot acc1 ∈ all ∧
    ∃ files' u, readable_folder d (projectRoot acc1) files' ∧
                List.find (λ f, Str.endsWith f ".uproject") files' = Some u ∧
                projectName acc1 = Path.parse_name u).
  { intros e. cbv zeta. destruct (List.find _ files) as [u|] eqn:Hu; [|done].
    right. split; [done|]. by exists files, u. }
  destruct (Fs.existsSync d (markerPath folder)) eqn:Hex.
  - split; [apply Hp'|]. right. split; [done|].
    by apply (has_marker_existsSync _ _ _ Hr).
  - split; [apply Hp'|]. by destruct (List.find _ files).
Qed.

Lemma scan_all_found_ok d all folders acc :
  (∀ f, f ∈ folders → f ∈ all) → found_ok d all acc →
  found_ok d all (fold_left (scan_step d) folders acc).
Proof.
  revert acc. induction folders as [|f folders IH]; intros acc Hsub Hok;
    simpl; [done|].
  apply IH.
  - intros g Hg. apply Hsub. by right.
  - apply scan_step_found_ok; [|done]. apply Hsub. by left.
Qed.

(** X3: what path resolution returns is real: the project root and the
    engine root are workspace folders, the marker script exists under
    the engine root, and the project name is the name, without its
    extension, of the first descriptor in the listing of the project
    root; none of the three is empty. *)
Theorem getWorkspacePaths_sound (w : World) (paths : WorkspacePaths) :
  (getWorkspacePaths vscode w).1 = Ok (Some paths) →
  projectRoot paths ∈ folders_of vscode ∧
  engineRoot paths ∈ folders_of vscode ∧
  has_marker (fs w) (engineRoot paths) ∧
  (∃ files u,
     readable_folder (fs w) (projectRoot paths) files ∧
     List.find (λ f, Str.endsWith f ".uproject") files = Some u ∧
     projectName paths = Path.parse_name u) ∧
  projectRoot paths ≠ EmptyString ∧ engineRoot paths ≠ EmptyString ∧
  projectName paths ≠ EmptyString.
Proof.
  rewrite getWorkspacePaths_closed. cbn [fst]. intros [= Hres].
  unfold resolved, folders_of in *.
  destruct (workspaceFolders vscode) as [folders|]; [|done].
  destruct (scan_all_found_ok (fs w) folders folders noPaths) as [Hp He].
  { done. }
  { split; by left. }
  cbv zeta in Hres.
  destruct (Str.truthy (projectRoot _)) eqn:T1; [|done].
  destruct (Str.truthy (engineRoot _)) eqn:T2; [|done].
  destruct (Str.truthy (projectName _)) eqn:T3; [|done].
  simpl in Hres. injection Hres as <-.
  apply truthy_nonempty in T1, T2, T3.
  destruct Hp as [?|[Hpin Hp]]; [done|].
  destruct He as [?|[Hein He]]; [done|].
  done.
Qed.

End PathResolutionMore.

(** ** Running a task, and the commands *)

Section CommandsMore.
Context `{Runtime}.
Variable vscode : VSCode.

Lemma find_none_Forall {A} (p : A → bool) xs :
  Forall (λ x, p x = false) xs → List.find p xs = None.
Proof. induction 1 as [|x xs Hx _ IH]; simpl; [done|]. by rewrite Hx. Qed.

Lemma name_differs (t : Task) taskName :
  name t ≠ taskName → String.eqb (name t) taskName = false.
Proof. intros Hne. by apply String.eqb_neq. Qed.

(** X4: running a task never throws and never touches the file system.
    When the host knows tasks of that name, the first of them in the
    host's order is executed and no message is shown; when it knows
    none, nothing is executed and one error message, naming the task,
    is shown. *)
Theorem triggerTask_spec (taskName : string) (w : World) :
  (triggerTask vscode taskName w).1 = Ok tt ∧
  fs (triggerTask vscode taskName w).2 = fs w ∧
  (∀ before task after,
     fetchTasks vscode = before ++ task :: after →
     Forall (λ t, name t ≠ taskName) before → name task = taskName →
     events (triggerTask vscode taskName w).2 = events w ++ [ExecuteTask task]) ∧
  (Forall (λ t, name t ≠ taskName) (fetchTasks vscode) →
   events (triggerTask vscode taskName w).2 =
     events w ++ [ShowErrorMessage (msgNotFound taskName)]).
Proof.
  rewrite triggerTask_run. cbn [fst snd fs events]. split; [done|].
  split; [done|]. unfold triggerEvent. split.
  - intros before task after -> Hbefore Hname.
    rewrite (find_first (λ t, String.eqb (name t) taskName)); [done| |].
    + eapply Forall_impl; [exact Hbefore|]. intros t. apply name_differs.
    + by apply String.eqb_eq.
  - intros Hall. rewrite find_none_Forall; [done|].
    eapply Forall_impl; [exact Hall|]. intros t. apply name_differs.
Qed.

(** X5: the refresh-files command never throws and never touches the
    file system (it does not inject): after the warnings of the folder
    scan it shows the missing-paths error when the paths do not resolve,
    and otherwise does the one thing running the generation task does. *)
Theorem cmdRefreshFiles_spec (w : World) :
  cmdRefreshFiles vscode w =
  (Ok tt,
   scanned w
     (scanLog vscode (fs w) ++
      [match resolved vscode (fs w) with
       | Some _ => triggerEvent vscode TASK_GENERATE
       | None => ShowErrorMessage msgMissingPaths
       end])).
Proof.
  unfold cmdRefreshFiles, Eff.bind. rewrite getWorkspacePaths_closed.
  destruct (resolved vscode (fs w)).
  - rewrite triggerTask_run. unfold scanned. cbn [fs events].
    by rewrite <- app_assoc.
  - unfold showMissingPathsError, Eff.emit, scanned. cbn [fs events].
    by rewrite <- app_assoc.
Qed.

(** X6: the refresh-headers command shows the missing-paths error and
    does nothing else when the paths do not resolve; otherwise it
    injects the tasks and, only if injection completed, runs the
    compound task: when injection throws, the command throws with it
    and nothing is run. *)
Theorem cmdRefreshHeaders_spec (w : World) :
  cmdRefreshHeaders vscode w =
  match resolved vscode (fs w) with
  | None =>
      (Ok tt, scanned w (scanLog vscode (fs w) ++
                         [ShowErrorMessage msgMissingPaths]))
  | Some paths =>
      match injectTasks paths (scanned w (scanLog vscode (fs w))) with
      | (Ok _, w') =>
          (Ok tt, scanned w' [triggerEvent vscode TASK_COMPOUND])
      | (Throw e, w') => (Throw e, w')
      end
  end.
Proof.
  unfold cmdRefreshHeaders, Eff.bind. rewrite getWorkspacePaths_closed.
  destruct (resolved vscode (fs w)) as [paths|].
  - destruct (injectTasks paths _) as [[[]|e] w']; [|done].
    by rewrite triggerTask_run.
  - unfold showMissingPathsError, Eff.emit, scanned. cbn [fs events].
    by rewrite <- app_assoc.
Qed.

End CommandsMore.

(** ** Setup *)

Section SetupMore.
Context `{Runtime}.
Variable vscode : VSCode.

Lemma generateConfigs_returns (context : ExtensionContext)
    (paths : WorkspacePaths) (w : World) :
  (generateConfigs context paths w).1 = Ok tt.
Proof.
  unfold generateConfigs, createFile, Eff.try_catch, Eff.bind, Eff.reads,
    Eff.writes, Eff.emit.
  destruct (Fs.readFileSync (fs w) _) as [c1|]; cbn [fs events fst snd]; [|done].
  destruct (Fs.readFileSync (fs w) _) as [c2|]; cbn [fs events fst snd]; [|done].
  destruct (Fs.writeFileSync (fs w) _ c1) as [d1|]; cbn [fs events fst snd];
    [|done].
  destruct (Fs.writeFileSync d1 _ c2) as [d2|]; cbn [fs events fst snd]; [|done].
  by destruct (Fs.writeFileSync d2 _ c1).
Qed.

(** X7: config install never throws: whatever the file system does, it
    returns normally, having shown nothing, or the engine-root warning,
    or the templates error followed by a console error. *)
Theorem generateConfigs_never_throws (context : ExtensionContext)
    (paths : WorkspacePaths) (w : World) :
  (generateConfigs context paths w).1 = Ok tt ∧
  (events (generateConfigs context paths w).2 = events w ∨
   events (generateConfigs context paths w).2 =
     events w ++ [ShowWarningMessage msgEngineWrite] ∨
   events (generateConfigs context paths w).2 = events w ++ templatesError).
Proof.
  unfold generateConfigs, createFile, Eff.try_catch, Eff.bind, Eff.reads,
    Eff.writes, Eff.emit, templatesError.
  destruct (Fs.readFileSync (fs w) _) as [c1|]; cbn [fs events fst snd];
    [|split; [done|]; right; right; by rewrite <- app_assoc].
  destruct (Fs.readFileSync (fs w) _) as [c2|]; cbn [fs events fst snd];
    [|split; [done|]; right; right; by rewrite <- app_assoc].
  destruct (Fs.writeFileSync (fs w) _ c1) as [d1|]; cbn [fs events fst snd];
    [|split; [done|]; right; right; by rewrite <- app_assoc].
  destruct (Fs.writeFileSync d1 _ c2) as [d2|]; cbn [fs events fst snd];
    [|split; [done|]; right; right; by rewrite <- app_assoc].
  destruct (Fs.writeFileSync d2 _ c1) as [d3|]; cbn [fs events fst snd].
  - split; [done|]. by left.
  - split; [done|]. right. by left.
Qed.

(** X8: when either bundled template cannot be read, config install
    writes nothing at all: the file system is as before, and the
    templates error and a console error are all that happened. *)
Theorem generateConfigs_unreadable_template (context : ExtensionContext)
    (paths : WorkspacePaths) (w : World) :
  (∃ e, Fs.readFileSync (fs w) (clangdSrc context) = Throw e) ∨
  (∃ e, Fs.readFileSync (fs w) (formatSrc context) = Throw e) →
  generateConfigs context paths w = (Ok tt, scanned w templatesError).
Proof.
  unfold generateConfigs, createFile, Eff.try_catch, Eff.bind, Eff.reads,
    Eff.writes, Eff.emit, templatesError, scanned.
  fold (clangdSrc context) (formatSrc context).
  intros [[e He]|[e He]]; rewrite He; cbn [fs events].
  - by rewrite <- app_assoc.
  - destruct (Fs.readFileSync (fs w) (clangdSrc context)); cbn [fs events];
      by rewrite <- app_assoc.
Qed.

(** X9: when a template cannot be written into the project root, config
    install reports it with the templates error, the same message as for
    a failed read, and does not go on to the engine root: a failed write
    of [.clangd] leaves the file system as it was, a failed write of
    [.clang-format] leaves only the project's [.clangd] written. *)
Theorem generateConfigs_project_write_fails (context : ExtensionContext)
    (paths : WorkspacePaths) (w : World) (clangdContent formatContent : string) :
  Fs.readFileSync (fs w) (clangdSrc context) = Ok clangdContent →
  Fs.readFileSync (fs w) (formatSrc context) = Ok formatContent →
  ((∃ e, Fs.writeFileSync (fs w) (projectClangd paths) clangdContent = Throw e) →
   generateConfigs context paths w = (Ok tt, scanned w templatesError)) ∧
  (∀ d1, Fs.writeFileSync (fs w) (projectClangd paths) clangdContent = Ok d1 →
     (∃ e, Fs.writeFileSync d1 (projectFormat paths) formatContent = Throw e) →
     generateConfigs context paths w =
       (Ok tt, {| fs := Fs.put (fs w) (projectClangd paths) (File clangdContent);
                  events := events w ++ templatesError |})).
Proof.
  intros Hr1 Hr2.
  unfold generateConfigs, createFile, Eff.try_catch, Eff.bind, Eff.reads,
    Eff.writes, Eff.emit, templatesError, scanned.
  fold (clangdSrc context) (formatSrc context) (projectClangd paths)
    (projectFormat paths).
  rewrite Hr1, Hr2. split.
  - intros [e ->]. cbn [fs events]. by rewrite <- app_assoc.
  - intros d1 Hw1 [e Hw2]. rewrite Hw1. cbn [fs events]. rewrite Hw2.
    cbn [fs events]. apply writeFileSync_ok in Hw1 as ->.
    by rewrite <- app_assoc.
Qed.

(** X10: when the paths do not resolve, setup stops there: after the
    warnings of the folder scan it shows the missing-paths error and
    nothing else happens; no file is written and no task is run. *)
Theorem runSetup_unresolved (context : ExtensionContext) (w : World) :
  resolved vscode (fs w) = None →
  runSetup vscode context w =
  (Ok tt, scanned w (scanLog vscode (fs w) ++ [ShowErrorMessage msgMissingPaths])).
Proof.
  intros Hres. unfold runSetup, Eff.bind. rewrite getWorkspacePaths_closed, Hres.
  unfold showMissingPathsError, Eff.emit, scanned. cbn [fs events].
  by rewrite <- app_assoc.
Qed.

(** X11: when the paths resolve, setup goes through its steps in order:
    the config step (skipped entirely when its flag is off, and never
    stopping setup when it fails), then injection, then the generation
    task and the closing message.  Injection throwing is the one thing
    that stops it: then setup throws too and no task is run. *)
Theorem runSetup_resolved (context : ExtensionContext) (w : World)
    (paths : WorkspacePaths) :
  resolved vscode (fs w) = Some paths →
  runSetup vscode context w =
  match injectTasks paths
          (configured vscode context paths (scanned w (scanLog vscode (fs w)))) with
  | (Ok _, w') =>
      (Ok tt, scanned w' [triggerEvent vscode TASK_GENERATE;
                          ShowInformationMessage msgSetup])
  | (Throw e, w') => (Throw e, w')
  end.
Proof.
  intros Hres. unfold runSetup. unfold Eff.bind at 1.
  rewrite getWorkspacePaths_closed, Hres.
  set (w1 := scanned w (scanLog vscode (fs w))).
  unfold configured. unfold Eff.bind at 1.
  assert (Hc : (if config_get vscode "generateConfigs"
                then generateConfigs context paths else Eff.ret ()) w1 =
               (Ok tt, if config_get vscode "generateConfigs"
                       then (generateConfigs context paths w1).2 else w1)).
  { destruct (config_get vscode "generateConfigs"); [|done].
    pose proof (generateConfigs_returns context paths w1) as Hok.
    destruct (generateConfigs context paths w1) as [r wc]. simpl in *.
    by rewrite Hok. }
  rewrite Hc. unfold Eff.bind.
  destruct (injectTasks paths _) as [[[]|e] w']; [|done].
  rewrite triggerTask_run. unfold Eff.emit, scanned. cbn [fs events].
  by rewrite <- app_assoc.
Qed.

End SetupMore.

(** ** The watchers *)

Section WatchersMore.
Context `{Runtime}.
Variable vscode : VSCode.

Lemma syncCompileCommands_closed w :
  syncCompileCommands vscode w =
  (Ok tt,
   match resolved vscode (fs w) with
   | None => scanned w (scanLog vscode (fs w))
   | Some paths =>
       {| fs := (syncOutcome vscode paths (fs w)).1;
          events := events w ++ scanLog vscode (fs w) ++
                    (syncOutcome vscode paths (fs w)).2 |}
   end).
Proof.
  unfold syncCompileCommands, Eff.bind. rewrite getWorkspacePaths_closed.
  destruct (resolved vscode (fs w)) as [paths|]; [|done].
  fold (syncSource paths) (syncDest paths).
  unfold syncOutcome, Eff.reads, Eff.try_catch, Eff.bind, Eff.writes, Eff.emit,
    executeCommand, Eff.bind, Eff.emit, Eff.ret, Eff.throw, scanned.
  cbn [fs events].
  destruct (Fs.existsSync (fs w) (syncSource paths)); cbn [fs events fst snd].
  - destruct (Fs.copyFileSync (fs w) (syncSource paths) (syncDest paths));
      cbn [fs events fst snd].
    + destruct (decide ("clangd.restart" ∈ commands vscode));
        cbn [fs events]; by rewrite <- !app_assoc.
    + by rewrite <- !app_assoc.
  - by rewrite <- !app_assoc.
Qed.

(** X12: when the paths do not resolve, the sync is a silent no-op: it
    returns normally, the file system is as before, and nothing is shown
    to the user (only the folder scan's console warnings are logged). *)
Theorem syncCompileCommands_unresolved (w : World) :
  resolved vscode (fs w) = None →
  syncCompileCommands vscode w = (Ok tt, scanned w (scanLog vscode (fs w))).
Proof. intros Hres. by rewrite syncCompileCommands_closed, Hres. Qed.

(** X13: when the copy went through but the host does not know the
    restart command, the rejected restart lands in the handler of the
    copy: the user is told the file was synced and then that the copy
    failed, although the destination holds the source's bytes. *)
Theorem syncCompileCommands_restart_rejected (w : World)
    (paths : WorkspacePaths) (d' : FileSystem) :
  resolved vscode (fs w) = Some paths →
  Fs.existsSync (fs w) (syncSource paths) = true →
  Fs.copyFileSync (fs w) (syncSource paths) (syncDest paths) = Ok d' →
  "clangd.restart" ∉ commands vscode →
  (syncCompileCommands vscode w).1 = Ok tt ∧
  events (syncCompileCommands vscode w).2 =
    events w ++ scanLog vscode (fs w) ++
    [ShowInformationMessage msgSynced; ExecuteCommand "clangd.restart";
     ShowErrorMessage msgCopyFailed] ∧
  ∃ bytes,
    nodes (fs w) !! syncSource paths = Some (File bytes) ∧
    nodes (fs (syncCompileCommands vscode w).2) !! syncDest paths =
      Some (File bytes).
Proof.
  intros Hres Hex Hcopy Hcmd. rewrite syncCompileCommands_closed, Hres.
  unfold syncOutcome. rewrite Hex, Hcopy. cbn [fst snd fs events].
  rewrite decide_False by done. split; [done|]. split; [done|].
  apply copyFileSync_ok in Hcopy as (bytes & Hsrc & ->).
  exists bytes. split; [done|]. apply lookup_insert_eq.
Qed.

(** X14: the sync never throws, and the only path it can change is the
    destination under the project root; what is denied stays denied. *)
Theorem syncCompileCommands_frame (w : World) :
  (syncCompileCommands vscode w).1 = Ok tt ∧
  denied (fs (syncCompileCommands vscode w).2) = denied (fs w) ∧
  ∀ q, (∀ paths, resolved vscode (fs w) = Some paths → q ≠ syncDest paths) →
       nodes (fs (syncCompileCommands vscode w).2) !! q = nodes (fs w) !! q.
Proof.
  rewrite syncCompileCommands_closed. cbn [fst snd]. split; [done|].
  destruct (resolved vscode (fs w)) as [paths|]; [|done]. cbn [fs].
  unfold syncOutcome.
  destruct (Fs.existsSync (fs w) (syncSource paths)); [|done].
  destruct (Fs.copyFileSync (fs w) (syncSource paths) (syncDest paths))
    as [d'|] eqn:Hcopy; [|done].
  apply copyFileSync_ok in Hcopy as (bytes & _ & ->). cbn [fst].
  split; [done|]. intros q Hq. unfold Fs.put. cbn [nodes].
  rewrite lookup_insert_ne; [done|]. intros <-. by apply (Hq paths).
Qed.

(** X15: the save watcher never throws and never touches the file
    system.  With the flag off it does nothing at all.  With the flag
    on it scans the folders and then runs the compound task exactly
    when the paths resolve, the file name ends in [.h] and contains
    [<projectRoot>/Source] somewhere, and phantom errors are reported for
    the file; in particular it does so for every such header under
    [<projectRoot>/Source/]. *)
Theorem saveWatcher_spec (doc : TextDocument) (w : World) :
  saveWatcher vscode doc w =
  (Ok tt,
   if config_get vscode "autoFixOnSave" then
     scanned w
       (scanLog vscode (fs w) ++
        match resolved vscode (fs w) with
        | Some paths =>
            if watcher_test vscode paths doc
            then [triggerEvent vscode TASK_COMPOUND] else []
        | None => []
        end)
   else w) ∧
  (∀ paths, under_source_subtree paths (fileName doc) = true →
            Str.endsWith (fileName doc) ".h" = true →
            hasPhantomErrors vscode (uri doc) = true →
            watcher_test vscode paths doc = true).
Proof.
  split.
  - unfold saveWatcher, watcher_test.
    destruct (config_get vscode "autoFixOnSave"); [|done]. cbn [negb].
    unfold Eff.bind. rewrite getWorkspacePaths_closed.
    destruct (resolved vscode (fs w)) as [paths|];
      [|unfold Eff.ret; by rewrite app_nil_r].
    destruct (Str.endsWith _ _), (Str.includes _ _); cbn [andb];
      try (unfold Eff.ret; by rewrite app_nil_r).
    destruct (hasPhantomErrors vscode (uri doc));
      [|unfold Eff.ret; by rewrite app_nil_r].
    rewrite triggerTask_run. unfold scanned. cbn [fs events].
    by rewrite <- app_assoc.
  - intros paths Hunder Hh Hph. unfold watcher_test.
    by rewrite Hh, Hph, (under_source_subtree_includes _ _ Hunder).
Qed.

End WatchersMore.

(** ** Task injection: more on the merge *)

Section MergeMore.
Context `{Runtime}.

Lemma mergeTask_positions tasks nt tasks' j et :
  mergeTask tasks nt = Ok tasks' → tasks !! j = Some et →
  ∃ et', tasks' !! j = Some et' ∧ label_of et' = label_of et ∧
         (et' = et ∨ et' = task_json nt).
Proof.
  intros [[_ ->]|(b & x & a & -> & _ & Hx & ->)]%mergeTask_inv Hj.
  - exists et. split; [by apply lookup_app_l_Some|]. by split; [|left].
  - destruct (decide (j = length b)) as [->|Hne].
    + rewrite list_lookup_middle in Hj by done. injection Hj as <-.
      exists (task_json nt). rewrite list_lookup_middle by done.
      split; [done|]. split; [|by right].
      apply sameLabel_true in Hx. by rewrite Hx.
    + exists et. split; [|by split; [|left]].
      rewrite <- (insert_middle b x). by rewrite list_lookup_insert_ne.
Qed.

Lemma mergeTask_length tasks nt tasks' :
  mergeTask tasks nt = Ok tasks' →
  length tasks' =
  (length tasks + if Nat.eqb (count_label (label nt) tasks) 0 then 1 else 0)%nat.
Proof.
  intros [[Hall ->]|(b & x & a & -> & Hb & Hx & ->)]%mergeTask_inv.
  - rewrite (count_label_absent _ _ Hall), length_app. done.
  - rewrite count_label_app, count_label_cons.
    apply sameLabel_true in Hx. rewrite bool_decide_eq_true_2 by done.
    rewrite !length_app. cbn [length].
    destruct (Nat.eqb _ 0) eqn:Hz; [apply Nat.eqb_eq in Hz|]; lia.
Qed.

Lemma missing_cons nt nts tasks :
  missing (nt :: nts) tasks =
  if Nat.eqb (count_label (label nt) tasks) 0 then nt :: missing nts tasks
  else missing nts tasks.
Proof. done. Qed.

Lemma missing_step nts tasks nt tasks' :
  Forall (λ nt', label nt' ≠ label nt) nts →
  mergeTask tasks nt = Ok tasks' → missing nts tasks' = missing nts tasks.
Proof.
  intros Hall Hm. induction Hall as [|nt' nts Hne _ IH]; [done|].
  rewrite !missing_cons, IH.
  by rewrite (mergeTask_count_other _ _ _ _ Hm) by done.
Qed.

Lemma NoDup_labels_cons (nt : TaskDefinition) nts :
  NoDup (map label (nt :: nts)) →
  Forall (λ nt', label nt' ≠ label nt) nts ∧ NoDup (map label nts).
Proof.
  simpl. intros [Hnotin Hnd]%NoDup_cons. split; [|done].
  apply Forall_forall. intros nt' Hin Heq. apply Hnotin.
  rewrite <- Heq. by apply list_elem_of_fmap_2.
Qed.

Lemma mergeTasks_length nts tasks tasks' :
  NoDup (map label nts) → mergeTasks tasks nts = Ok tasks' →
  length tasks' = (length tasks + length (missing nts tasks))%nat.
Proof.
  revert tasks. induction nts as [|nt nts IH]; intros tasks Hnd Hm;
    simpl in Hm.
  - injection Hm as <-. change (missing [] tasks) with (@nil TaskDefinition).
    simpl. lia.
  - destruct (NoDup_labels_cons _ _ Hnd) as [Hne Hnd'].
    destruct (mergeTask tasks nt) as [tasks1|] eqn:H1; [|done].
    rewrite (IH _ Hnd' Hm), (mergeTask_length _ _ _ H1).
    rewrite (missing_step _ _ _ _ Hne H1), missing_cons.
    destruct (Nat.eqb _ 0); simpl; lia.
Qed.

Lemma mergeTasks_positions nts tasks tasks' j et :
  mergeTasks tasks nts = Ok tasks' → tasks !! j = Some et →
  ∃ et', tasks' !! j = Some et' ∧ label_of et' = label_of et ∧
         (et' = et ∨ et' ∈ map task_json nts).
Proof.
  revert tasks et. induction nts as [|nt nts IH]; intros tasks et; simpl.
  - intros [= <-] Hj. exists et. by split; [|split; [|left]].
  - destruct (mergeTask tasks nt) as [tasks1|] eqn:H1; [|done].
    intros Hrest Hj.
    destruct (mergeTask_positions _ _ _ _ _ H1 Hj) as (et1 & Hj1 & Hl1 & Hv1).
    destruct (IH _ _ Hrest Hj1) as (et' & Hj' & Hl' & Hv').
    exists et'. split; [done|]. split; [congruence|].
    destruct Hv' as [->|Hin]; [|right; by right].
    destruct Hv1 as [->| ->]; [by left|right; by left].
Qed.

Lemma mergeTasks_keeps nts tasks tasks' j et :
  mergeTasks tasks nts = Ok tasks' → tasks !! j = Some et →
  Forall (λ nt, label_of et ≠ Some (label nt)) nts →
  tasks' !! j = Some et.
Proof.
  intros Hm Hj Hall. revert tasks Hm Hj.
  induction Hall as [|nt nts Hne _ IH]; intros tasks; simpl.
  - by intros [= <-].
  - destruct (mergeTask tasks nt) as [tasks1|] eqn:H1; [|done].
    intros Hrest Hj. apply (IH _ Hrest). by eapply mergeTask_keeps.
Qed.

Lemma first_with_label_unique l i k tasks :
  first_with_label l i tasks → first_with_label l k tasks → i = k.
Proof.
  intros [(et & Hi & Hl) Hbefore] [(et' & Hk & Hl') Hbefore'].
  destruct (lt_eq_lt_dec i k) as [[Hlt|]|Hlt]; [|done|].
  - by destruct (Hbefore' _ _ Hlt Hi).
  - by destruct (Hbefore _ _ Hlt Hk).
Qed.

Lemma first_with_label_step l i tasks nt tasks' :
  mergeTask tasks nt = Ok tasks' →
  first_with_label l i tasks → first_with_label l i tasks'.
Proof.
  intros Hm [(et & Hi & Hl) Hbefore].
  destruct (mergeTask_positions _ _ _ _ _ Hm Hi) as (et' & Hi' & Hl' & _).
  split; [exists et'; split; [done|congruence]|].
  intros j etj Hlt Hj.
  assert (is_Some (tasks !! j)) as [et0 Hj0].
  { apply lookup_lt_is_Some. apply lookup_lt_Some in Hi. lia. }
  destruct (mergeTask_positions _ _ _ _ _ Hm Hj0) as (et0' & Hj0' & Hl0 & _).
  assert (et0' = etj) as -> by congruence.
  rewrite Hl0. by eapply Hbefore.
Qed.

(** the step for [nt] puts it at the first entry carrying its label and
    touches no other entry *)
Lemma mergeTask_first tasks nt tasks' i :
  mergeTask tasks nt = Ok tasks' → first_with_label (label nt) i tasks →
  tasks' = <[i := task_json nt]> tasks.
Proof.
  intros Hm Hfirst. pose proof Hfirst as [(et & Hi & Hl) _].
  apply mergeTask_inv in Hm as [[Hall _]|(b & x & a & -> & Hb & Hx & ->)].
  - rewrite Forall_forall in Hall.
    destruct (sameLabel_false nt et); [|done].
    apply Hall. by eapply list_elem_of_lookup_2.
  - assert (first_with_label (label nt) (length b) (b ++ x :: a)) as Hfirst'.
    { split.
      - exists x. split; [by apply list_lookup_middle|by apply sameLabel_true].
      - intros j etj Hlt Hj. rewrite lookup_app_l in Hj by done.
        apply sameLabel_false. rewrite Forall_forall in Hb. apply Hb.
        by eapply list_elem_of_lookup_2. }
    rewrite (first_with_label_unique _ _ _ _ Hfirst Hfirst').
    by rewrite insert_middle.
Qed.

Lemma mergeTasks_first nts tasks tasks' nt i :
  NoDup (map label nts) → mergeTasks tasks nts = Ok tasks' → nt ∈ nts →
  first_with_label (label nt) i tasks →
  tasks' !! i = Some (task_json nt) ∧
  ∀ j et, (i < j)%nat → tasks !! j = Some et →
          label_of et = Some (label nt) → tasks' !! j = Some et.
Proof.
  revert tasks. induction nts as [|nt0 nts IH]; intros tasks Hnd Hm Hin Hfirst.
  { by apply elem_of_nil in Hin. }
  destruct (NoDup_labels_cons _ _ Hnd) as [Hne Hnd'].
  simpl in Hm. destruct (mergeTask tasks nt0) as [tasks1|] eqn:H1; [|done].
  apply elem_of_cons in Hin as [->|Hin].
  - pose proof (mergeTask_first _ _ _ _ H1 Hfirst) as ->.
    pose proof Hfirst as [(et & Hi & _) _].
    assert (Hkeep : Forall (λ nt, Some (label nt0) ≠ Some (label nt)) nts).
    { eapply Forall_impl; [exact Hne|]. intros nt' ? [=]. congruence. }
    split.
    + apply (mergeTasks_keeps _ _ _ _ _ Hm); [|done].
      apply list_lookup_insert_eq. by eapply lookup_lt_Some.
    + intros j etj Hlt Hj Hl. apply (mergeTasks_keeps _ _ _ _ _ Hm).
      * rewrite list_lookup_insert_ne by lia. done.
      * by rewrite Hl.
  - assert (Hl0 : label nt ≠ label nt0).
    { rewrite Forall_forall in Hne. by apply Hne. }
    destruct (IH tasks1 Hnd' Hm Hin (first_with_label_step _ _ _ _ _ H1 Hfirst))
      as [Hi Hdup].
    split; [done|]. intros j etj Hlt Hj Hl. apply (Hdup _ _ Hlt); [|done].
    eapply mergeTask_keeps; [done..|]. rewrite Hl. congruence.
Qed.

(** the merge into a list that carries none of the labels appends the
    definitions in their order *)
Lemma mergeTasks_all_missing nts tasks :
  NoDup (map label nts) →
  Forall (λ et, et ≠ JNull ∧
                Forall (λ nt, label_of et ≠ Some (label nt)) nts) tasks →
  mergeTasks tasks nts = Ok (tasks ++ map task_json nts).
Proof.
  revert tasks. induction nts as [|nt nts IH]; intros tasks Hnd Hall; simpl.
  - by rewrite app_nil_r.
  - destruct (NoDup_labels_cons _ _ Hnd) as [Hne Hnd'].
    rewrite mergeTask_append.
    + rewrite IH; [by rewrite <- app_assoc|done|].
      apply Forall_app. split.
      * eapply Forall_impl; [exact Hall|]. intros et [Hnn Hl].
        split; [done|]. by apply Forall_cons in Hl as [_ ?].
      * constructor; [|done]. split; [done|].
        eapply Forall_impl; [exact Hne|]. intros nt' Hl [=]. congruence.
    + eapply Forall_impl; [exact Hall|]. intros et [Hnn Hl].
      apply Forall_cons in Hl as [Hl _]. rewrite sameLabel_spec.
      destruct et; try done; f_equal; by apply bool_decide_eq_false_2.
Qed.

Lemma settled_first nt tasks :
  settled nt tasks →
  ∃ i, first_with_label (label nt) i tasks ∧ tasks !! i = Some (task_json nt).
Proof.
  intros (b & a & -> & Hb). exists (length b).
  split; [|by apply list_lookup_middle]. split.
  - exists (task_json nt). by split; [apply list_lookup_middle|].
  - intros j et Hlt Hj. rewrite lookup_app_l in Hj by done.
    apply sameLabel_false. rewrite Forall_forall in Hb. apply Hb.
    by eapply list_elem_of_lookup_2.
Qed.

End MergeMore.

(** ** Task injection: the other manifests *)

Section InjectionMore.
Context `{Runtime}.

Lemma length_append a b :
  String.length (a +:+ b) = (String.length a + String.length b)%nat.
Proof.
  induction a as [|c a IH]; [done|].
  change (String c a +:+ b) with (String c (a +:+ b)). simpl. by rewrite IH.
Qed.

Lemma tasksJsonPath_not_vscodeDir paths : tasksJsonPath paths ≠ vscodeDir paths.
Proof.
  unfold tasksJsonPath. unfold Path.join at 1. intros Heq.
  apply (f_equal String.length) in Heq. rewrite !length_append in Heq.
  simpl in Heq. lia.
Qed.

Lemma world_eta (w : World) : {| fs := fs w; events := events w ++ [] |} = w.
Proof. destruct w. simpl. by rewrite app_nil_r. Qed.

(** the run of [injectTasks] on an existing manifest that parses *)
Lemma injectTasks_existing paths w v :
  manifest_value paths (fs w) v →
  injectTasks paths w =
  match prepared v with
  | Throw _ =>
      (Ok tt, written paths (scanned w [ConsoleWarn msgParseFailed])
                (freshManifest paths))
  | Ok start =>
      match mergeAll start (newTasks paths) with
      | Ok final => (Ok tt, written paths w (Js.content final))
      | Throw e => (Throw e, w)
      end
  end.
Proof.
  intros (Hdir & Hok & content & Hfile & Hparse).
  pose proof (tasksJsonPath_truthy paths) as Ht.
  rewrite injectTasks_run. unfold ensureDir. rewrite Hdir. cbv zeta.
  unfold startTasksJson. rewrite (existsSync_file _ _ _ Ht Hfile).
  unfold loadTasksJson.
  rewrite (readFileSync_file _ _ _ Ht Hfile Hok), Hparse.
  fold (prepared v). destruct (prepared v) as [start|e]; cbn [fst snd].
  - rewrite world_eta.
    destruct (mergeAll start (newTasks paths)) as [final|e]; [|done].
    rewrite (writeFileSync_file _ _ _ _ Ht Hfile Hok).
    unfold written. by rewrite app_nil_r.
  - rewrite mergeAll_default. cbn [Js.content Js.ref].
    by rewrite (writeFileSync_file _ _ _ _ Ht Hfile Hok).
Qed.

Lemma manifest_object_value paths d props :
  manifest_object paths d props → manifest_value paths d (JObj props).
Proof. done. Qed.

(** the run of [injectTasks] on a manifest object with a task list *)
Lemma injectTasks_tasks paths w props tasks :
  manifest_object paths (fs w) props →
  Js.assoc_get "tasks" props = Some (JArr tasks) →
  injectTasks paths w =
  match mergeTasks tasks (newTasks paths) with
  | Ok tasks' =>
      (Ok tt, written paths w (JObj (Js.assoc_set "tasks" (JArr tasks') props)))
  | Throw e => (Throw e, w)
  end.
Proof.
  intros Hm Hg. rewrite (injectTasks_existing _ _ _ (manifest_object_value _ _ _ Hm)).
  unfold prepared, Js.getProp, Js.ref. cbn [Js.content]. rewrite Hg.
  cbn [Js.truthy negb].
  assert (Hg' : Js.getProp (Js.ref (JObj props)) "tasks" = Ok (Some (JArr tasks)))
    by (unfold Js.getProp; simpl; by rewrite Hg).
  fold (Js.ref (JObj props)). rewrite (mergeAll_array _ _ _ Hg').
  by destruct (mergeTasks tasks (newTasks paths)).
Qed.

Lemma newTasks_NoDup paths : NoDup (map label (newTasks paths)).
Proof. rewrite newTasks_labels. apply requiredLabels_NoDup. Qed.

(** X16: when there is no manifest yet, injection creates the
    directory if it is missing and writes the fresh manifest, holding
    the four definitions and nothing else; it logs nothing. *)
Theorem injectTasks_no_manifest (paths : WorkspacePaths) (w : World) :
  nodes (fs w) !! tasksJsonPath paths = None →
  tasksJsonPath paths ∉ denied (fs w) →
  vscodeDir paths ∉ denied (fs w) →
  (∀ content, nodes (fs w) !! vscodeDir paths ≠ Some (File content)) →
  let w' := (injectTasks paths w).2 in
  (injectTasks paths w).1 = Ok tt ∧
  events w' = events w ∧
  nodes (fs w') !! tasksJsonPath paths =
    Some (File (JSON_stringify (freshManifest paths))) ∧
  ∃ entries, nodes (fs w') !! vscodeDir paths = Some (Dir entries).
Proof.
  intros Hnone Hok Hdirok Hnotfile.
  pose proof (tasksJsonPath_truthy paths) as Ht.
  pose proof (tasksJsonPath_not_vscodeDir paths) as Hne.
  rewrite injectTasks_run.
  assert (Hd : ∃ d1, ensureDir paths (fs w) = Ok d1 ∧
                     nodes d1 !! tasksJsonPath paths = None ∧
                     denied d1 = denied (fs w) ∧
                     ∃ entries, nodes d1 !! vscodeDir paths = Some (Dir entries)).
  { unfold ensureDir, Fs.existsSync, Fs.mkdirSync, Fs.node_at.
    assert (Str.truthy (vscodeDir paths) = true) as ->
      by (unfold vscodeDir, Path.join; apply truthy_append_r;
          by destruct path_sep).
    cbn [negb]. rewrite decide_False by done.
    destruct (nodes (fs w) !! vscodeDir paths) as [[c|entries]|] eqn:Hn.
    - by destruct (Hnotfile c).
    - exists (fs w). by eauto.
    - eexists. split; [done|]. unfold Fs.put. cbn [nodes denied].
      split; [by rewrite lookup_insert_ne|]. split; [done|].
      exists []. apply lookup_insert_eq. }
  destruct Hd as (d1 & -> & Hnone1 & Hden1 & entries & Hdir1). cbv zeta.
  unfold startTasksJson, Fs.existsSync, Fs.node_at. rewrite Ht, Hnone1.
  cbn [fst snd]. rewrite mergeAll_default. cbn [Js.content Js.ref].
  assert (Fs.writeFileSync d1 (tasksJsonPath paths)
            (JSON_stringify (freshManifest paths)) =
          Ok (Fs.put d1 (tasksJsonPath paths)
                (File (JSON_stringify (freshManifest paths))))) as ->.
  { unfold Fs.writeFileSync. rewrite Ht, Hnone1. cbn [negb].
    rewrite decide_False; [done|]. by rewrite Hden1. }
  cbn [fst snd fs events]. split; [done|]. split; [by rewrite app_nil_r|].
  unfold Fs.put. cbn [nodes]. split; [apply lookup_insert_eq|].
  exists entries. by rewrite lookup_insert_ne.
Qed.

(** X17: when the manifest's [tasks] is there and truthy but is not an
    array (a string, a number, an object), injection throws a
    [TypeError] and leaves the world exactly as it was: the manifest is
    not rewritten and nothing is logged. *)
Theorem injectTasks_tasks_not_array (paths : WorkspacePaths) (w : World)
    (props : list (string * value)) (x : value) :
  manifest_object paths (fs w) props →
  Js.assoc_get "tasks" props = Some x →
  Js.truthy (Some x) = true →
  (∀ tasks, x ≠ JArr tasks) →
  injectTasks paths w = (Throw TypeError, w).
Proof.
  intros Hm Hg Htruthy Hx.
  rewrite (injectTasks_existing _ _ _ (manifest_object_value _ _ _ Hm)).
  unfold prepared, Js.getProp, Js.ref. cbn [Js.content]. rewrite Hg, Htruthy.
  cbn [negb]. destruct (newTasks_cons paths) as (nt & nts & ->).
  rewrite (mergeAll_not_array _ x); [done| |done].
  unfold Js.getProp. simpl. by rewrite Hg.
Qed.

(** X18: a [null] entry in the task list makes injection throw a
    [TypeError], leaving the world exactly as it was, as soon as the
    search for the first definition's label reaches it, that is, when no
    entry before it carries that label. *)
Theorem injectTasks_null_entry (paths : WorkspacePaths) (w : World)
    (props : list (string * value)) (before after : list value) :
  manifest_object paths (fs w) props →
  Js.assoc_get "tasks" props = Some (JArr (before ++ JNull :: after)) →
  Forall (λ et, et ≠ JNull ∧ label_of et ≠ Some TASK_GENERATE) before →
  injectTasks paths w = (Throw TypeError, w).
Proof.
  intros Hm Hg Hbefore. rewrite (injectTasks_tasks _ _ _ _ Hm Hg).
  destruct (newTasks_cons paths) as (nt & nts & Hnts).
  assert (Hl : label nt = TASK_GENERATE).
  { pose proof (newTasks_labels paths) as Hlabels. rewrite Hnts in Hlabels.
    by injection Hlabels. }
  rewrite Hnts. simpl. unfold mergeTask, Js.findIndex.
  assert (Hthrow : ∀ i, Js.findIndex_from (sameLabel nt)
                          (before ++ JNull :: after) i = Throw TypeError).
  { clear Hg. induction Hbefore as [|et before [Hnn Hlab] _ IH]; intros i;
      simpl; [done|].
    rewrite sameLabel_spec.
    destruct et; try done; rewrite bool_decide_eq_false_2 by congruence;
      apply IH. }
  by rewrite Hthrow.
Qed.

(** X19: when the manifest object has no [tasks], or a falsy one
    ([null], [false], [0], the empty string), injection gives it the
    four definitions as its task list, in their order, and keeps its
    other properties; nothing is logged. *)
Theorem injectTasks_without_tasks (paths : WorkspacePaths) (w : World)
    (props : list (string * value)) :
  manifest_object paths (fs w) props →
  Js.truthy (Js.assoc_get "tasks" props) = false →
  injectTasks paths w =
  (Ok tt, written paths w
            (JObj (Js.assoc_set "tasks"
                     (JArr (map task_json (newTasks paths))) props))).
Proof.
  intros Hm Hfalsy.
  rewrite (injectTasks_existing _ _ _ (manifest_object_value _ _ _ Hm)).
  unfold prepared, Js.getProp, Js.setProp, Js.ref. cbn [Js.content Js.expando].
  rewrite Hfalsy. cbn [negb].
  rewrite (mergeAll_array _ _ []).
  - rewrite mergeTasks_fresh. unfold with_tasks. cbn [Js.content Js.expando].
    by rewrite assoc_set_set.
  - unfold Js.getProp. cbn [Js.content]. by rewrite assoc_get_set.
Qed.

(** X20: a manifest whose text is the JSON [null] is treated like one
    that does not parse: reading its [tasks] throws inside the [try], so
    the parse warning is logged and the fresh manifest is written. *)
Theorem injectTasks_null_manifest (paths : WorkspacePaths) (w : World) :
  manifest_value paths (fs w) JNull →
  injectTasks paths w =
  (Ok tt, written paths (scanned w [ConsoleWarn msgParseFailed])
            (freshManifest paths)).
Proof. intros Hm. by rewrite (injectTasks_existing _ _ _ Hm). Qed.

(** X21: a manifest whose top level is a JSON array is written back as
    that same array: the task list is hung on the array as a property
    that [JSON.stringify] leaves out, so injection completes without a
    warning and none of the four definitions reaches the file. *)
Theorem injectTasks_array_manifest (paths : WorkspacePaths) (w : World)
    (items : list value) :
  manifest_value paths (fs w) (JArr items) →
  injectTasks paths w = (Ok tt, written paths w (JArr items)).
Proof.
  intros Hm. rewrite (injectTasks_existing _ _ _ Hm).
  unfold prepared, Js.getProp, Js.setProp, Js.ref.
  cbn [Js.content Js.expando Js.assoc_get Js.truthy negb].
  rewrite (mergeAll_array _ _ []) by done. by rewrite mergeTasks_fresh.
Qed.

End InjectionMore.

(** ** Task injection: what a completed merge leaves *)

Section InjectionMerge.
Context `{Runtime}.

Lemma injectTasks_completes paths w props tasks :
  manifest_object paths (fs w) props →
  Js.assoc_get "tasks" props = Some (JArr tasks) →
  (injectTasks paths w).1 = Ok tt →
  ∃ tasks',
    mergeTasks tasks (newTasks paths) = Ok tasks' ∧
    injectTasks paths w =
    (Ok tt, written paths w (JObj (Js.assoc_set "tasks" (JArr tasks') props))).
Proof.
  intros Hm Hg. rewrite (injectTasks_tasks _ _ _ _ Hm Hg).
  destruct (mergeTasks tasks (newTasks paths)) as [tasks'|e]; [|done].
  intros _. by exists tasks'.
Qed.

(** X22: when injection completes on a manifest object with a task
    list, whatever that list repeats, the list it writes keeps every
    position of the old one under the label it had, the entry there
    being the old one or one of the four definitions, and is longer by
    one entry for each required label the old list did not carry. *)
Theorem injectTasks_positions (paths : WorkspacePaths) (w : World)
    (props : list (string * value)) (tasks : list value) :
  manifest_object paths (fs w) props →
  Js.assoc_get "tasks" props = Some (JArr tasks) →
  (injectTasks paths w).1 = Ok tt →
  ∃ tasks',
    injectTasks paths w =
    (Ok tt, written paths w (JObj (Js.assoc_set "tasks" (JArr tasks') props))) ∧
    length tasks' =
      (length tasks + length (missing (newTasks paths) tasks))%nat ∧
    ∀ j et, tasks !! j = Some et →
      ∃ et', tasks' !! j = Some et' ∧ label_of et' = label_of et ∧
             (et' = et ∨ et' ∈ map task_json (newTasks paths)).
Proof.
  intros Hm Hg Hrun.
  destruct (injectTasks_completes _ _ _ _ Hm Hg Hrun) as (tasks' & Hmerge & ->).
  exists tasks'. split; [done|]. split.
  - by apply mergeTasks_length; [apply newTasks_NoDup|].
  - intros j et Hj. by apply (mergeTasks_positions _ _ _ _ _ Hmerge).
Qed.

(** X23: when the old task list carries a required label more than
    once, a completed injection puts the definition in the place of the
    first entry under that label and leaves the later entries under it
    as they were: the duplicates stay in the manifest. *)
Theorem injectTasks_first_replaced (paths : WorkspacePaths) (w : World)
    (props : list (string * value)) (tasks : list value)
    (nt : TaskDefinition) (i : nat) :
  manifest_object paths (fs w) props →
  Js.assoc_get "tasks" props = Some (JArr tasks) →
  (injectTasks paths w).1 = Ok tt →
  nt ∈ newTasks paths →
  first_with_label (label nt) i tasks →
  ∃ tasks',
    injectTasks paths w =
    (Ok tt, written paths w (JObj (Js.assoc_set "tasks" (JArr tasks') props))) ∧
    tasks' !! i = Some (task_json nt) ∧
    ∀ j et, (i < j)%nat → tasks !! j = Some et →
            label_of et = Some (label nt) → tasks' !! j = Some et.
Proof.
  intros Hm Hg Hrun Hnt Hfirst.
  destruct (injectTasks_completes _ _ _ _ Hm Hg Hrun) as (tasks' & Hmerge & ->).
  exists tasks'. split; [done|].
  by apply (mergeTasks_first (newTasks paths) tasks);
    [apply newTasks_NoDup| | |].
Qed.

(** X24: when no entry of the old task list is [null] or carries a
    required label, injection completes and writes the old list followed
    by the four definitions, in the order of [newTasks]. *)
Theorem injectTasks_appends_in_order (paths : WorkspacePaths) (w : World)
    (props : list (string * value)) (tasks : list value) :
  manifest_object paths (fs w) props →
  Js.assoc_get "tasks" props = Some (JArr tasks) →
  Forall (λ et, et ≠ JNull ∧
                ∀ l, l ∈ requiredLabels → label_of et ≠ Some l) tasks →
  injectTasks paths w =
  (Ok tt, written paths w
            (JObj (Js.assoc_set "tasks"
                     (JArr (tasks ++ map task_json (newTasks paths))) props))).
Proof.
  intros Hm Hg Hnone. rewrite (injectTasks_tasks _ _ _ _ Hm Hg).
  rewrite mergeTasks_all_missing; [done|apply newTasks_NoDup|].
  eapply Forall_impl; [exact Hnone|]. intros et [Hnn Hl]. split; [done|].
  apply Forall_forall. intros nt Hnt. apply Hl.
  rewrite <- (newTasks_labels paths). apply list_elem_of_fmap. by exists nt.
Qed.

Lemma ensureDir_inv paths d d1 :
  ensureDir paths d = Ok d1 →
  d1 = d ∨ d1 = Fs.put d (vscodeDir paths) (Dir []).
Proof.
  unfold ensureDir, Fs.mkdirSync.
  destruct (Fs.existsSync d (vscodeDir paths)); [intros [= <-]; by left|].
  destruct (Str.truthy (vscodeDir paths)); [|done]. simpl.
  destruct (decide (_ ∈ _)); [done|].
  destruct (nodes d !! vscodeDir paths) as [[?|?]|]; try done;
    intros [= <-]; by eauto.
Qed.

Lemma startTasksJson_log paths d :
  (startTasksJson paths d).2 = [] ∨
  (startTasksJson paths d).2 = [ConsoleWarn msgParseFailed].
Proof.
  unfold startTasksJson. destruct (Fs.existsSync d (tasksJsonPath paths));
    [|by left].
  destruct (loadTasksJson paths d); by eauto.
Qed.

(** X25: whatever the world and however the run ends, injection touches
    nothing of the file system beyond the manifest and its directory,
    changes no permission, and logs at most the one parse warning; it
    never shows a message and never starts a task or a command. *)
Theorem injectTasks_footprint (paths : WorkspacePaths) (w : World) :
  let w' := (injectTasks paths w).2 in
  denied (fs w') = denied (fs w) ∧
  (∀ p, p ≠ vscodeDir paths → p ≠ tasksJsonPath paths →
        nodes (fs w') !! p = nodes (fs w) !! p) ∧
  (events w' = events w ∨
   events w' = events w ++ [ConsoleWarn msgParseFailed]).
Proof.
  rewrite injectTasks_run.
  destruct (ensureDir paths (fs w)) as [d1|e] eqn:Hdir; cbn [snd].
  2:{ split; [done|]. split; [done|]. by left. }
  cbv zeta.
  assert (Hd1 : denied d1 = denied (fs w) ∧
                ∀ p, p ≠ vscodeDir paths →
                     nodes d1 !! p = nodes (fs w) !! p).
  { destruct (ensureDir_inv _ _ _ Hdir) as [->| ->]; [done|].
    split; [done|]. intros p Hp. unfold Fs.put. cbn [nodes].
    by rewrite lookup_insert_ne. }
  destruct Hd1 as [Hden Hnodes].
  assert (Hev : events w ++ (startTasksJson paths d1).2 = events w ∨
                events w ++ (startTasksJson paths d1).2 =
                events w ++ [ConsoleWarn msgParseFailed]).
  { destruct (startTasksJson_log paths d1) as [-> | ->];
      [left; apply app_nil_r|by right]. }
  destruct (mergeAll _ (newTasks paths)) as [final|e]; cbn [snd fs events].
  2:{ split; [done|]. split; [|done]. intros p Hp _. by apply Hnodes. }
  destruct (Fs.writeFileSync d1 _ _) as [d2|e] eqn:Hw; cbn [snd fs events].
  2:{ split; [done|]. split; [|done]. intros p Hp _. by apply Hnodes. }
  apply writeFileSync_inv in Hw as (_ & _ & -> & _).
  split; [done|]. split; [|done]. intros p Hp Hp'. unfold Fs.put.
  cbn [nodes]. rewrite lookup_insert_ne by done. by apply Hnodes.
Qed.

End InjectionMerge.

#[local] Existing Instance Reference.runtime.

(** path resolution on the example workspace *)
Example getWorkspacePaths_example :
  (getWorkspacePaths Examples.vscode0 Examples.world0).1 = Ok (Some Examples.paths0).
Proof. reflexivity. Qed.

(** C5, as stated, fails: with two descriptors in one folder the first
    one of the listing names the project, although the last descriptor
    in scan order is the other one. *)
Lemma getWorkspacePaths_first_in_folder :
  (getWorkspacePaths Examples.vscode3 Examples.world3).1 =
    Ok (Some {| projectRoot := "/ws"; engineRoot := "/ws"; projectName := "A" |}) ∧
  last (descriptors_in_scan_order (fs Examples.world3) ["/ws"]) =
    Some ("/ws", "B.uproject") ∧
  Path.parse_name "B.uproject" = "B".
Proof. by vm_compute. Qed.

Lemma getWorkspacePaths_descriptor_choice_witness :
  has_descriptor (fs MoreExamples.world8) "/old" ∧
  nodes (fs MoreExamples.world8) !! "/ws" =
    Some (Dir ["Readme.md"; "A.uproject"; "B.uproject"]) ∧
  ∃ paths,
    (getWorkspacePaths MoreExamples.vscode8 MoreExamples.world8).1 =
      Ok (Some paths) ∧
    projectRoot paths = "/ws" ∧
    projectName paths = "A".
Proof.
  split; [|split; [reflexivity|]].
  { exists ["Old.uproject"], "Old.uproject".
    split; [|split; [by left|reflexivity]].
    split; [discriminate|]. split; [reflexivity|]. apply not_elem_of_empty. }
  apply (getWorkspacePaths_descriptor_choice MoreExamples.vscode8
           MoreExamples.world8 ["/old"] ["/engine"] "/ws"
           ["Readme.md"] ["B.uproject"] "A.uproject").
  - reflexivity.
  - split; [discriminate|]. split; [reflexivity|]. apply not_elem_of_empty.
  - by repeat constructor.
  - reflexivity.
  - repeat constructor.
    intros (files & u & (_ & Hn & _) & Hin & He).
    vm_compute in Hn. injection Hn as <-.
    repeat (apply elem_of_cons in Hin as [->|Hin]; [discriminate|]).
    by apply elem_of_nil in Hin.
  - apply Exists_cons. right. apply Exists_cons. right.
    apply Exists_cons. left.
    split; [|by eexists].
    eexists. split; [discriminate|]. split; [reflexivity|].
    apply not_elem_of_empty.
Defined.

Lemma hasPhantomErrors_iff_witness :
  hasPhantomErrors Examples.vscode0 "file:///proj/Source/A.h" = true ↔
  ∃ d, d ∈ getDiagnostics Examples.vscode0 "file:///proj/Source/A.h" ∧
       phantom d.
Proof.
  exact (proj1 (hasPhantomErrors_iff Examples.vscode0 reference_numeral
                  "file:///proj/Source/A.h")).
Defined.

(** C7 fails on the code: the saved header lies in [/proj/SourceArchive],
    not under [/proj/Source/], and the watcher still runs the compound
    task, because it looks for [/proj/Source] anywhere in the file name. *)
Theorem saveWatcher_triggers_outside_source :
  resolved Examples.vscode0 (fs Examples.world0) = Some Examples.paths0 ∧
  under_source_subtree Examples.paths0 (fileName Examples.sibling) = false ∧
  Str.includes (fileName Examples.sibling)
    (Path.join [projectRoot Examples.paths0; "Source"]) = true ∧
  events (saveWatcher Examples.vscode0 Examples.sibling Examples.world0).2 =
    [ExecuteTask Examples.fixTask].
Proof. by vm_compute. Qed.

Lemma syncCompileCommands_spec_witness :
  nodes (fs (syncCompileCommands Examples.vscode0 Examples.world0).2)
    !! syncDest Examples.paths0 = Some (File "[]") ∧
  restart_requested
    (events (syncCompileCommands Examples.vscode0 Examples.world0).2).
Proof.
  destruct (syncCompileCommands_spec Examples.vscode0 Examples.world0
              Examples.paths0) as (scan & after & _ & Hev & Hcopy & _).
  - reflexivity.
  - destruct (Hcopy (Fs.put (fs Examples.world0) (syncDest Examples.paths0)
                       (File "[]")))
      as (Hfs & (bytes & Hsrc & _ & Hdst) & rest & Hafter).
    + reflexivity.
    + reflexivity.
    + split.
      * rewrite Hfs. reflexivity.
      * unfold restart_requested. rewrite Hev, Hafter.
        apply elem_of_app. right. apply elem_of_app. right.
        apply elem_of_cons. right. apply elem_of_cons. by left.
Defined.

(** C9, as stated, fails: with every write allowed and nothing reported,
    the format template reaches the project root but not the engine
    root. *)
Lemma generateConfigs_engine_root_clangd_only :
  let w' := (generateConfigs Examples.context0 Examples.paths0
               Examples.world0).2 in
  (generateConfigs Examples.context0 Examples.paths0 Examples.world0).1 = Ok tt ∧
  events w' = [] ∧
  nodes (fs w') !! "/proj/.clangd" = Some (File "CompileFlags:") ∧
  nodes (fs w') !! "/proj/.clang-format" = Some (File "BasedOnStyle: LLVM") ∧
  nodes (fs w') !! "/engine/.clangd" = Some (File "CompileFlags:") ∧
  nodes (fs w') !! "/engine/.clang-format" = None.
Proof. by vm_compute. Qed.

Lemma generateConfigs_spec_witness :
  let run := generateConfigs Examples.context0 Examples.paths0 in
  (nodes (fs (run Examples.world0).2) !! projectClangd Examples.paths0 =
     Some (File "CompileFlags:") ∧
   nodes (fs (run Examples.world0).2) !! projectFormat Examples.paths0 =
     Some (File "BasedOnStyle: LLVM") ∧
   nodes (fs (run Examples.world0).2) !! engineClangd Examples.paths0 =
     Some (File "CompileFlags:") ∧
   events (run Examples.world0).2 = []) ∧
  ((run MoreExamples.world9).1 = Ok tt ∧
   nodes (fs (run MoreExamples.world9).2) !! projectFormat Examples.paths0 =
     Some (File "BasedOnStyle: LLVM") ∧
   nodes (fs (run MoreExamples.world9).2) !! engineClangd Examples.paths0 =
     None ∧
   events (run MoreExamples.world9).2 = [ShowWarningMessage msgEngineWrite]) ∧
  ((run MoreExamples.world6).1 = Ok tt ∧
   fs (run MoreExamples.world6).2 = fs MoreExamples.world6 ∧
   events (run MoreExamples.world6).2 = templatesError).
Proof.
  cbv zeta. split; [|split].
  - destruct (generateConfigs_spec Examples.context0 Examples.paths0
                Examples.world0 "CompileFlags:" "BasedOnStyle: LLVM")
      as (_ & Hclangd & Hformat & _ & Hfs & Hev & Hengine).
    + reflexivity.
    + reflexivity.
    + split; [exact Hclangd|]. split; [exact Hformat|].
      split; [|exact Hev]. rewrite Hfs. exact Hengine.
  - destruct (generateConfigs_spec Examples.context0 Examples.paths0
                MoreExamples.world9 "CompileFlags:" "BasedOnStyle: LLVM")
      as (Hok & _ & Hformat & _ & Hfs & Hev).
    + reflexivity.
    + reflexivity.
    + split; [exact Hok|]. split; [exact Hformat|].
      split; [|exact Hev]. rewrite Hfs. reflexivity.
  - destruct (generateConfigs_spec Examples.context0 Examples.paths0
                MoreExamples.world6 "CompileFlags:" "BasedOnStyle: LLVM")
      as (Hok & Hfs & Hev).
    + reflexivity.
    + reflexivity.
    + split; [exact Hok|]. split; [exact Hfs|exact Hev].
Defined.



Lemma injectTasks_malformed_witness :
  (injectTasks Examples.paths0 Examples.world2).1 = Ok tt ∧
  events (injectTasks Examples.paths0 Examples.world2).2 =
    [ConsoleWarn msgParseFailed] ∧
  nodes (fs (injectTasks Examples.paths0 Examples.world2).2)
    !! tasksJsonPath Examples.paths0 =
    Some (File (JSON_stringify (requiredManifest Examples.paths0))) ∧
  JSON_parse (JSON_stringify (requiredManifest Examples.paths0)) =
    Some (requiredManifest Examples.paths0).
Proof.
  destruct (injectTasks_malformed (H := Reference.runtime)
              reference_stringify_parse
              Examples.paths0 Examples.world2 "{ // tasks")
    as (Hok & Hev & Hfile & Hparse & _).
  - reflexivity.
  - reflexivity.
  - apply not_elem_of_empty.
  - reflexivity.
  - split; [exact Hok|]. split; [exact Hev|]. split; [exact Hfile|exact Hparse].
Defined.


Lemma engine_has_marker : has_marker (fs Examples.world0) "/engine".
Proof.
  split; [|by eexists]. exists ["Engine"; "compile_commands.json"].
  split; [done|]. split; [reflexivity|apply not_elem_of_empty].
Qed.

(** the engine root on the example workspace *)
Lemma getWorkspacePaths_engine_choice_witness :
  ∃ paths,
    (getWorkspacePaths Examples.vscode0 Examples.world0).1 = Ok (Some paths) ∧
    engineRoot paths = "/engine".
Proof.
  apply (getWorkspacePaths_engine_choice Examples.vscode0 Examples.world0
           ["/proj"] [] "/engine").
  - reflexivity.
  - exact engine_has_marker.
  - constructor.
  - apply Exists_cons_hd. exists ["Source"; "Game.uproject"], "Game.uproject".
    split; [|split; [|reflexivity]].
    + split; [done|]. split; [reflexivity|apply not_elem_of_empty].
    + apply elem_of_cons. right. apply elem_of_cons. by left.
Defined.

(** what was resolved on the example workspace lies in it *)
Lemma getWorkspacePaths_sound_witness :
  projectRoot Examples.paths0 ∈ folders_of Examples.vscode0 ∧
  engineRoot Examples.paths0 ∈ folders_of Examples.vscode0 ∧
  has_marker (fs Examples.world0) (engineRoot Examples.paths0).
Proof.
  destruct (getWorkspacePaths_sound Examples.vscode0 Examples.world0
              Examples.paths0) as (Hp & He & Hm & _).
  - reflexivity.
  - split; [exact Hp|]. split; [exact He|exact Hm].
Defined.

(** setup of the configs once the template is gone *)
Lemma generateConfigs_unreadable_template_witness :
  generateConfigs Examples.context0 Examples.paths0 MoreExamples.world4 =
  (Ok tt, scanned MoreExamples.world4 templatesError).
Proof.
  apply generateConfigs_unreadable_template. left. by eexists.
Defined.

(** setup of the configs when the project's file cannot be written *)
Lemma generateConfigs_project_write_fails_witness :
  generateConfigs Examples.context0 Examples.paths0 MoreExamples.world6 =
  (Ok tt, scanned MoreExamples.world6 templatesError).
Proof.
  destruct (generateConfigs_project_write_fails Examples.context0
              Examples.paths0 MoreExamples.world6
              "CompileFlags:" "BasedOnStyle: LLVM") as [Hfirst _].
  - reflexivity.
  - reflexivity.
  - apply Hfirst. by eexists.
Defined.

(** setup on a workspace without an engine folder *)
Lemma runSetup_unresolved_witness :
  runSetup MoreExamples.vscode4 Examples.context0 Examples.world0 =
  (Ok tt, scanned Examples.world0
            [folderWarning "/gone"; ShowErrorMessage msgMissingPaths]).
Proof.
  by apply (runSetup_unresolved MoreExamples.vscode4 Examples.context0
              Examples.world0).
Defined.

(** setup on the example workspace *)
Lemma runSetup_resolved_witness :
  (runSetup Examples.vscode0 Examples.context0 Examples.world0).1 = Ok tt ∧
  events (runSetup Examples.vscode0 Examples.context0 Examples.world0).2 =
    [triggerEvent Examples.vscode0 TASK_GENERATE;
     ShowInformationMessage msgSetup].
Proof.
  rewrite (runSetup_resolved Examples.vscode0 Examples.context0
             Examples.world0 Examples.paths0); [|reflexivity].
  by vm_compute.
Defined.

(** the sync on a workspace without an engine folder *)
Lemma syncCompileCommands_unresolved_witness :
  syncCompileCommands MoreExamples.vscode4 Examples.world0 =
  (Ok tt, scanned Examples.world0 [folderWarning "/gone"]).
Proof.
  by apply (syncCompileCommands_unresolved MoreExamples.vscode4
              Examples.world0).
Defined.

(** the sync on a host without the language-server extension *)
Lemma syncCompileCommands_restart_rejected_witness :
  events (syncCompileCommands MoreExamples.vscode5 Examples.world0).2 =
    [ShowInformationMessage msgSynced; ExecuteCommand "clangd.restart";
     ShowErrorMessage msgCopyFailed] ∧
  nodes (fs (syncCompileCommands MoreExamples.vscode5 Examples.world0).2)
    !! syncDest Examples.paths0 = Some (File "[]").
Proof.
  destruct (syncCompileCommands_restart_rejected MoreExamples.vscode5
              Examples.world0 Examples.paths0
              (Fs.put (fs Examples.world0) (syncDest Examples.paths0)
                 (File "[]")))
    as (_ & Hev & bytes & Hsrc & Hdst).
  - reflexivity.
  - reflexivity.
  - reflexivity.
  - apply not_elem_of_empty.
  - split; [exact Hev|]. rewrite Hdst. rewrite <- Hsrc. reflexivity.
Defined.

Lemma manifestWorld_value (v : json (@number Reference.runtime)) :
  Canon.canonical v = true →
  manifest_value Examples.paths0 (fs (MoreExamples.manifestWorld v)) v.
Proof.
  intros Hc. split; [reflexivity|]. split; [apply not_elem_of_empty|].
  exists (JSON_stringify v). split; [apply lookup_insert_eq|].
  by apply reference_parse_stringify.
Qed.

(** injection into a project without a manifest and without its
    directory *)
Lemma injectTasks_no_manifest_witness :
  (injectTasks Examples.paths0 MoreExamples.world7).1 = Ok tt ∧
  nodes (fs (injectTasks Examples.paths0 MoreExamples.world7).2)
    !! tasksJsonPath Examples.paths0 =
    Some (File (JSON_stringify (freshManifest Examples.paths0))) ∧
  ∃ entries,
    nodes (fs (injectTasks Examples.paths0 MoreExamples.world7).2)
      !! vscodeDir Examples.paths0 = Some (Dir entries).
Proof.
  destruct (injectTasks_no_manifest Examples.paths0 MoreExamples.world7)
    as (Hok & _ & Hfile & Hdir).
  - reflexivity.
  - apply not_elem_of_empty.
  - apply not_elem_of_empty.
  - intros content. by vm_compute.
  - split; [exact Hok|]. split; [exact Hfile|exact Hdir].
Defined.

(** injection into a manifest whose [tasks] is a string *)
Lemma injectTasks_tasks_not_array_witness :
  injectTasks Examples.paths0
    (MoreExamples.manifestWorld (JObj MoreExamples.propsText)) =
  (Throw TypeError, MoreExamples.manifestWorld (JObj MoreExamples.propsText)).
Proof.
  apply (injectTasks_tasks_not_array Examples.paths0 _
           MoreExamples.propsText (JStr "none")).
  - by apply manifestWorld_value.
  - reflexivity.
  - reflexivity.
  - done.
Defined.

(** injection into a manifest with a [null] after the user's task *)
Lemma injectTasks_null_entry_witness :
  injectTasks Examples.paths0
    (MoreExamples.manifestWorld (JObj MoreExamples.propsNull)) =
  (Throw TypeError, MoreExamples.manifestWorld (JObj MoreExamples.propsNull)).
Proof.
  apply (injectTasks_null_entry Examples.paths0 _
           MoreExamples.propsNull [Examples.foo] []).
  - by apply manifestWorld_value.
  - reflexivity.
  - by repeat constructor.
Defined.

(** injection into a manifest without [tasks] *)
Lemma injectTasks_without_tasks_witness :
  injectTasks Examples.paths0
    (MoreExamples.manifestWorld (JObj MoreExamples.propsBare)) =
  (Ok tt,
   written Examples.paths0
     (MoreExamples.manifestWorld (JObj MoreExamples.propsBare))
     (JObj [ ("version", JStr "2.0.0"); ("inputs", JArr []);
             ("tasks", JArr (map task_json (newTasks Examples.paths0))) ])).
Proof.
  apply (injectTasks_without_tasks Examples.paths0 _ MoreExamples.propsBare).
  - by apply manifestWorld_value.
  - reflexivity.
Defined.

(** injection into the manifest [null] *)
Lemma injectTasks_null_manifest_witness :
  injectTasks Examples.paths0 (MoreExamples.manifestWorld JNull) =
  (Ok tt,
   written Examples.paths0
     (scanned (MoreExamples.manifestWorld JNull) [ConsoleWarn msgParseFailed])
     (freshManifest Examples.paths0)).
Proof.
  apply injectTasks_null_manifest. by apply manifestWorld_value.
Defined.

(** injection into a manifest that is a list of tasks *)
Lemma injectTasks_array_manifest_witness :
  injectTasks Examples.paths0
    (MoreExamples.manifestWorld (JArr [Examples.foo])) =
  (Ok tt,
   written Examples.paths0
     (MoreExamples.manifestWorld (JArr [Examples.foo]))
     (JArr [Examples.foo])).
Proof.
  apply injectTasks_array_manifest. by apply manifestWorld_value.
Defined.

Lemma world5_manifest :
  manifest_object Examples.paths0 (fs MoreExamples.world5) MoreExamples.props5.
Proof. by apply (manifestWorld_value (JObj MoreExamples.props5)). Qed.

Lemma world5_completes :
  (injectTasks Examples.paths0 MoreExamples.world5).1 = Ok tt.
Proof.
  rewrite (injectTasks_tasks _ _ _ _ world5_manifest eq_refl).
  by vm_compute.
Qed.

(** injection into the manifest with the old generate task twice: three
    required labels were missing *)
Lemma injectTasks_positions_witness :
  ∃ tasks',
    injectTasks Examples.paths0 MoreExamples.world5 =
    (Ok tt, written Examples.paths0 MoreExamples.world5
              (JObj (Js.assoc_set "tasks" (JArr tasks') MoreExamples.props5))) ∧
    length tasks' = 6%nat ∧
    tasks' !! 1%nat = Some Examples.foo.
Proof.
  destruct (injectTasks_positions Examples.paths0 MoreExamples.world5
              MoreExamples.props5
              [MoreExamples.oldGenerate; Examples.foo; MoreExamples.oldGenerate])
    as (tasks' & Hrun & Hlen & Hpos).
  - exact world5_manifest.
  - reflexivity.
  - exact world5_completes.
  - exists tasks'. split; [exact Hrun|]. split; [exact Hlen|].
    destruct (Hpos 1%nat Examples.foo eq_refl)
      as (et' & Het' & Hlab & [->|Hin]); [exact Het'|].
    exfalso. apply list_elem_of_fmap in Hin as (nt & -> & Hin).
    rewrite label_of_task_json in Hlab.
    repeat (apply elem_of_cons in Hin as [->|Hin]; [discriminate Hlab|]).
    by apply elem_of_nil in Hin.
Defined.

(** injection into the manifest with the old generate task twice: the
    first is replaced, the second stays *)
Lemma injectTasks_first_replaced_witness :
  ∃ tasks',
    injectTasks Examples.paths0 MoreExamples.world5 =
    (Ok tt, written Examples.paths0 MoreExamples.world5
              (JObj (Js.assoc_set "tasks" (JArr tasks') MoreExamples.props5))) ∧
    label_of <$> tasks' !! 0%nat = Some (Some TASK_GENERATE) ∧
    tasks' !! 0%nat ≠ Some MoreExamples.oldGenerate ∧
    tasks' !! 2%nat = Some MoreExamples.oldGenerate.
Proof.
  destruct (newTasks_cons Examples.paths0) as (nt & nts & Hnts).
  assert (Hl : label nt = TASK_GENERATE).
  { pose proof (newTasks_labels Examples.paths0) as Hlabels.
    rewrite Hnts in Hlabels. by injection Hlabels. }
  destruct (injectTasks_first_replaced Examples.paths0 MoreExamples.world5
              MoreExamples.props5
              [MoreExamples.oldGenerate; Examples.foo; MoreExamples.oldGenerate]
              nt 0)
    as (tasks' & Hrun & Hfirst & Hlater).
  - exact world5_manifest.
  - reflexivity.
  - exact world5_completes.
  - rewrite Hnts. by left.
  - rewrite Hl. split; [by exists MoreExamples.oldGenerate|].
    intros j et Hj. lia.
  - exists tasks'. split; [exact Hrun|]. rewrite Hfirst. split.
    + simpl. f_equal. rewrite <- Hl. apply label_of_task_json.
    + split.
      * intros [= Heq]. revert Heq. injection Hnts as <- _. by vm_compute.
      * apply Hlater; [lia|reflexivity|by rewrite Hl].
Defined.

(** injection into the manifest with only the user's task *)
Lemma injectTasks_appends_in_order_witness :
  injectTasks Examples.paths0 Examples.world1 =
  (Ok tt, written Examples.paths0 Examples.world1
            (JObj [ ("version", JStr "1.0.0");
                    ("tasks", JArr (Examples.foo ::
                                    map task_json (newTasks Examples.paths0)));
                    ("inputs", JArr []) ])).
Proof.
  apply (injectTasks_appends_in_order Examples.paths0 Examples.world1
           Examples.props1 [Examples.foo]).
  - split; [reflexivity|]. split; [apply not_elem_of_empty|].
    exists Examples.content1. split; [reflexivity|].
    by apply reference_parse_stringify.
  - reflexivity.
  - constructor; [|constructor]. split; [done|]. intros l Hl.
    repeat (apply elem_of_cons in Hl as [->|Hl]; [by vm_compute|]).
    by apply elem_of_nil in Hl.
Defined.


